(** * py_make_name: renaming a library project, with rollback

    A shallow embedding of [py_make_name.py].  The script copies the project
    directory to a sibling named after the new library, edits [setup.cfg],
    regenerates the Sphinx [conf.py], drops the stale [.egg-info], renames
    the package directories and finally deletes the original directory; a
    [try]/[except] around everything but the last step removes the copy again.

    Modelling conventions.
    - Strings are sequences of 8-bit characters.  Case folding, white space
      and regular expressions are those of ASCII texts; where the library
      would fold or match a text with other characters, as Unicode, the
      model stops ([Beyond]).
    - The file system is the directory holding the project: an association
      list from entry names to trees.  A path is the list of names leading
      from that directory to an entry, and every name is one path component;
      where the script would hand the operating system a name with a
      separator in it, the model stops ([Beyond]).  [os.rename] follows
      POSIX, text files are read with universal newlines.
    - A computation ends in a value ([Ok]), in an exception ([Raise]) or
      outside of what the model follows ([Beyond]); only the first two say
      what the script does.
    - The script object [ScriptInfo], the file system, the working directory
      and the two output channels form the state that is threaded through
      every function; an exception leaves the state as it was when raised.
    - Whether an operating-system call fails for a reason outside the file
      tree (permissions, full disk, interruption) is decided by the
      [environment] of the run.
    - Three routines of the Python library are taken as given ([pylib]):
      regular-expression substitution, [ConfigParser]'s file syntax and its
      value interpolation.  [plain_py] is an instance that computes, for
      patterns without metacharacters and files in the layout that
      [ConfigParser.write] produces, and answers [Beyond] for the rest. *)

From Stdlib Require Import String Ascii List Bool Arith Lia.
Import ListNotations.
Local Open Scope string_scope.

(** ** Strings *)

Definition lower_ascii (c : ascii) : ascii :=
  let n := nat_of_ascii c in
  if Nat.leb 65 n && Nat.leb n 90 then ascii_of_nat (n + 32) else c.

(** [str.lower] of an ASCII text *)
Fixpoint lower (s : string) : string :=
  match s with
  | EmptyString => EmptyString
  | String c s' => String (lower_ascii c) (lower s')
  end.

(** [needle in hay] *)
Fixpoint contains (needle hay : string) : bool :=
  String.prefix needle hay ||
  match hay with
  | EmptyString => false
  | String _ hay' => contains needle hay'
  end.

Fixpoint drop (n : nat) (s : string) : string :=
  match n, s with
  | 0, _ => s
  | S _, EmptyString => EmptyString
  | S k, String _ s' => drop k s'
  end.

Fixpoint take (n : nat) (s : string) : string :=
  match n, s with
  | 0, _ => EmptyString
  | S _, EmptyString => EmptyString
  | S k, String c s' => String c (take k s')
  end.

(** [s.replace(old, new)] for a non-empty [old]: every occurrence, left to
    right, without overlap.  [skip] counts the characters of a match that
    are still to be passed over. *)
Fixpoint replace_from (old new s : string) (skip : nat) : string :=
  match s with
  | EmptyString => EmptyString
  | String c s' =>
      match skip with
      | S k => replace_from old new s' k
      | 0 =>
          if String.prefix old s
          then new ++ replace_from old new s' (String.length old - 1)
          else String c (replace_from old new s' 0)
      end
  end.

Fixpoint intersperse_with (new s : string) : string :=
  match s with
  | EmptyString => new
  | String c s' => new ++ String c (intersperse_with new s')
  end.

Definition replace (old new s : string) : string :=
  match old with
  | EmptyString => intersperse_with new s
  | _ => replace_from old new s 0
  end.

Definition has_char (c : ascii) (s : string) : bool :=
  contains (String c EmptyString) s.

Fixpoint all_chars (f : ascii -> bool) (s : string) : bool :=
  match s with
  | EmptyString => true
  | String c s' => f c && all_chars f s'
  end.

Definition is_ascii_char (c : ascii) : bool := Nat.ltb (nat_of_ascii c) 128.

Definition is_ascii (s : string) : bool := all_chars is_ascii_char s.

(** what reading in text mode makes of the line ends: CR LF and CR
    become LF *)
Fixpoint newlines (s : string) : string :=
  match s with
  | EmptyString => EmptyString
  | String c s' =>
      if Ascii.eqb c "013"
      then String "010" (match s' with
                         | String "010" s'' => newlines s''
                         | _ => newlines s'
                         end)
      else String c (newlines s')
  end.

(** a name that is one step in a directory: no separator, no NUL *)
Definition one_step (name : string) : bool :=
  negb (has_char "/" name) && negb (has_char "000" name).

(** ** Exceptions and results *)

Inductive exn : Type :=
| ValueError (msg : string)
| TypeError
| AssertionError
| FileExistsError (msg : string)
| FileNotFoundError (msg : string)
| NotADirectoryError
| IsADirectoryError
| PermissionError
| OSError
| ShutilError
| NoSectionError (section : string)
| NoOptionError (opt section : string)
| InterpolationError
| ParsingError
| ReError
| KeyboardInterrupt.

Inductive result (A : Type) : Type :=
| Ok (a : A)
| Raise (e : exn)
| Beyond.            (* the model does not follow the script here *)
Arguments Ok {A} a.
Arguments Raise {A} e.
Arguments Beyond {A}.

(** ** ConfigStore: the part of [configparser.ConfigParser] the script uses *)

Definition options := list (string * string).

Record config : Type := mkConfig {
  defaults : options;                  (* the DEFAULT section *)
  sections : list (string * options)   (* in file order *)
}.

Definition empty_config : config := mkConfig [] [].

Section Assoc.
Context {V : Type}.

Fixpoint lookup (k : string) (l : list (string * V)) : option V :=
  match l with
  | [] => None
  | (k', v) :: l' => if String.eqb k k' then Some v else lookup k l'
  end.

(** Assignment in a Python dict: an existing key keeps its place, a new
    one goes last. *)
Fixpoint put (k : string) (v : V) (l : list (string * V)) : list (string * V) :=
  match l with
  | [] => [(k, v)]
  | (k', v') :: l' =>
      if String.eqb k k' then (k', v) :: l' else (k', v') :: put k v l'
  end.

Definition remove (k : string) (l : list (string * V)) : list (string * V) :=
  filter (fun e => negb (String.eqb k (fst e))) l.
End Assoc.

(** the number of characters before the first [c], and what follows it *)
Fixpoint find_char (c : ascii) (s : string) : option (nat * string) :=
  match s with
  | EmptyString => None
  | String a s' =>
      if Ascii.eqb a c then Some (0, s')
      else match find_char c s' with
           | Some (n, r) => Some (S n, r)
           | None => None
           end
  end.

(** the length of a match of [%\(([^)]+)\)s] at the head of [s] *)
Definition keycre_match (s : string) : option nat :=
  match s with
  | String "%" (String "(" r) =>
      match find_char ")" r with
      | Some (S n, String "s" _) => Some (n + 5)
      | _ => None
      end
  | _ => None
  end.

Fixpoint strip_keys (s : string) (skip : nat) : string :=
  match s with
  | EmptyString => EmptyString
  | String c s' =>
      match skip with
      | S k => strip_keys s' k
      | 0 =>
          match keycre_match s with
          | Some n => strip_keys s' (n - 1)
          | None => String c (strip_keys s' 0)
          end
      end
  end.

(** [BasicInterpolation.before_set]: drop every [%%], drop every
    [%(name)s], and refuse the value if a [%] is left *)
Definition before_set (value : string) : result string :=
  let tmp_value := strip_keys (replace "%%" "" value) 0 in
  if has_char "%" tmp_value
  then Raise (ValueError "invalid interpolation syntax")
  else Ok value.

(** the value stored for [opt] in [section], DEFAULT as fall-back *)
Definition section_dict (c : config) (section : string) : result options :=
  match lookup section (sections c) with
  | Some d => Ok d
  | None => if String.eqb section "DEFAULT" then Ok [] else Raise (NoSectionError section)
  end.

Definition raw_get (c : config) (section opt : string) : result string :=
  match section_dict c section with
  | Raise e => Raise e
  | Beyond => Beyond
  | Ok d =>
      match lookup (lower opt) d with
      | Some v => Ok v
      | None =>
          match lookup (lower opt) (defaults c) with
          | Some v => Ok v
          | None => Raise (NoOptionError (lower opt) section)
          end
      end
  end.

(** [config.set(section, opt, value)]: the value is a [str] or [None] *)
Definition cfg_set (c : config) (section opt : string) (value : option string)
  : result config :=
  match value with
  | None => Raise TypeError
  | Some v =>
      match (if String.eqb v "" then Ok v else before_set v) with
      | Raise e => Raise e
      | Beyond => Beyond
      | Ok v' =>
          if String.eqb section "" || String.eqb section "DEFAULT"
          then Ok (mkConfig (put (lower opt) v' (defaults c)) (sections c))
          else
            match lookup section (sections c) with
            | None => Raise (NoSectionError section)
            | Some d =>
                Ok (mkConfig (defaults c)
                      (put section (put (lower opt) v' d) (sections c)))
            end
      end
  end.

(** [config.write(f)] *)
Definition write_option (kv : string * string) : string :=
  fst kv ++ " = " ++ replace (String "010" "") (String "010" (String "009" "")) (snd kv)
         ++ String "010" "".

Definition write_section (name : string) (items : options) : string :=
  "[" ++ name ++ "]" ++ String "010" ""
      ++ String.concat "" (map write_option items) ++ String "010" "".

Definition cfg_write (c : config) : string :=
  (match defaults c with
   | [] => ""
   | d => write_section "DEFAULT" d
   end)
  ++ String.concat "" (map (fun s => write_section (fst s) (snd s)) (sections c)).

(** ** The routines taken from the Python library *)

Record pylib : Type := {
  (** [re.sub(pattern, repl, string, flags=re.IGNORECASE)] *)
  re_sub : string -> string -> string -> result string;
  (** what [ConfigParser.read] makes of the text of a file *)
  cfg_parse : string -> result config;
  (** [BasicInterpolation.before_get parser section option value] *)
  before_get : config -> string -> string -> string -> result string
}.

(** [config.get(section, opt)] *)
Definition cfg_get (py : pylib) (c : config) (section opt : string) : result string :=
  match raw_get c section opt with
  | Raise e => Raise e
  | Beyond => Beyond
  | Ok v => before_get py c section (lower opt) v
  end.

(** ** NameSubstitution: lines 149-154 of [rename_packages]

    The two names that are compared in lower case are followed when they
    are ASCII. *)

Definition new_package_name (py : pylib) (old_name parent_name target_name : string)
  : result string :=
  if is_ascii old_name && is_ascii parent_name
  then if contains (lower old_name) (lower parent_name)
       then re_sub py parent_name old_name target_name
       else Ok target_name
  else Beyond.

(** ** The file tree *)

#[warnings="-register-all"] Inductive node : Type :=
| File (data : string)
| Dir (entries : list (string * node)).

Definition dir := list (string * node).
Definition path := list string.

(** [p / a / b] *)
Definition joinpath (p : path) (names : list string) : path := (p ++ names)%list.

Definition is_dir (n : node) : bool :=
  match n with Dir _ => true | File _ => false end.

Definition entries_of (n : node) : dir :=
  match n with Dir d => d | File _ => [] end.

Fixpoint get_at (p : path) (n : node) : option node :=
  match p, n with
  | [], _ => Some n
  | x :: p', Dir d =>
      match lookup x d with
      | Some c => get_at p' c
      | None => None
      end
  | _ :: _, File _ => None
  end.

(** bind the last name of [p] to [new]; the directories above it stay *)
Fixpoint set_at (p : path) (new : node) (n : node) : node :=
  match p, n with
  | [], _ => new
  | [x], Dir d => Dir (put x new d)
  | x :: p', Dir d =>
      match lookup x d with
      | Some c => Dir (put x (set_at p' new c) d)
      | None => n
      end
  | _ :: _, File _ => n
  end.

Fixpoint del_at (p : path) (n : node) : node :=
  match p, n with
  | [x], Dir d => Dir (remove x d)
  | x :: p', Dir d =>
      match lookup x d with
      | Some c => Dir (put x (del_at p' c) d)
      | None => n
      end
  | _, _ => n
  end.

Definition get (p : path) (r : dir) : option node := get_at p (Dir r).
Definition set (p : path) (new : node) (r : dir) : dir := entries_of (set_at p new (Dir r)).
Definition del (p : path) (r : dir) : dir := entries_of (del_at p (Dir r)).

Definition present (p : path) (r : dir) : bool :=
  match get p r with Some _ => true | None => false end.

(** ** The state of a run *)

Record ScriptInfo : Type := mkInfo {
  name_target : option string;
  name_original : option string;
  path_original : option path;
  path_target : option path;
  new_created : bool
}.

Record state : Type := mkState {
  info : ScriptInfo;
  root : dir;               (* the directory that holds the project *)
  cwd : path;               (* the working directory, from [root] *)
  stdout : list string;     (* what was written, oldest first *)
  stderr : list string;
  stdout_error : option exn (* what a write to a broken standard output
                               raises *)
}.

(** [ScriptInfo()] in the project directory [project] of [r] *)
Definition initial (project : string) (r : dir) : state :=
  mkState (mkInfo None None None None false) r [project] [] [] None.

Definition with_info (f : ScriptInfo -> ScriptInfo) (s : state) : state :=
  mkState (f (info s)) (root s) (cwd s) (stdout s) (stderr s) (stdout_error s).
Definition with_root (r : dir) (s : state) : state :=
  mkState (info s) r (cwd s) (stdout s) (stderr s) (stdout_error s).
Definition with_cwd (p : path) (s : state) : state :=
  mkState (info s) (root s) p (stdout s) (stderr s) (stdout_error s).

(** ** The environment of a run *)

Inductive write_fault : Type :=
| OpenFails (e : exn)                    (* nothing is touched *)
| WriteFails (e : exn) (written : nat).  (* the file was truncated and
                                            [written] bytes reached it *)

Record environment : Type := {
  argv : list string;
  parent_dir : string;                        (* absolute path of [root],
                                                 no slash at its end *)
  copytree_fault : option (exn * option dir); (* what was copied before it *)
  chdir_fault : option exn;
  cfg_write_fault : option write_fault;
  template_read_fault : option exn;
  conf_write_fault : option write_fault;
  egg_fault : option (exn * dir);             (* what is left of the tree *)
  egg_chmod_fault : option exn;
  egg_retry_fault : option (exn * dir);
  rename_fault : string -> option exn;        (* by directory name *)
  stdout_fault : option (exn * option exn);   (* at line 218, and what a
                                                 later write raises if the
                                                 stream is left broken *)
  rollback_fault : option (exn * dir);
  commit_fault : option (exn * dir)
}.

(** ** Stateful computations that may raise *)

Definition M (A : Type) : Type := state -> result A * state.

Definition ret {A} (a : A) : M A := fun s => (Ok a, s).
Definition raise {A} (e : exn) : M A := fun s => (Raise e, s).
Definition beyond {A} : M A := fun s => (Beyond, s).
Definition bind {A B} (m : M A) (k : A -> M B) : M B :=
  fun s =>
    match m s with
    | (Ok a, s') => k a s'
    | (Raise e, s') => (Raise e, s')
    | (Beyond, s') => (Beyond, s')
    end.
Definition lift {A} (r : result A) : M A := fun s => (r, s).

Declare Scope py_scope.
Delimit Scope py_scope with py.
Notation "x <- m ;; k" := (bind m (fun x => k))
  (at level 61, m at next level, right associativity) : py_scope.
Notation "m ;; k" := (bind m (fun _ => k))
  (at level 61, right associativity) : py_scope.
Local Open Scope py_scope.

(** *** Operating-system calls *)

(** [shutil.copytree(src, dst)] *)
Definition copytree (fault : option (exn * option dir)) (src dst : path) : M unit :=
  fun s =>
    match get src (root s) with
    | None => (Raise (FileNotFoundError "copytree"), s)
    | Some (File _) => (Raise NotADirectoryError, s)
    | Some (Dir d) =>
        if present dst (root s) then (Raise (FileExistsError "copytree"), s)
        else
          match fault with
          | Some (e, None) => (Raise e, s)
          | Some (e, Some partial) =>
              (Raise e, with_root (set dst (Dir partial) (root s)) s)
          | None => (Ok tt, with_root (set dst (Dir d) (root s)) s)
          end
    end.

(** [shutil.rmtree(p)] *)
Definition rmtree (fault : option (exn * dir)) (p : path) : M unit :=
  fun s =>
    match get p (root s) with
    | None => (Raise (FileNotFoundError "rmtree"), s)
    | Some (File _) => (Raise NotADirectoryError, s)
    | Some (Dir _) =>
        match fault with
        | Some (e, rest) => (Raise e, with_root (set p (Dir rest) (root s)) s)
        | None => (Ok tt, with_root (del p (root s)) s)
        end
    end.

(** [os.chdir(p)] *)
Definition chdir (fault : option exn) (p : path) : M unit :=
  fun s =>
    match fault with
    | Some e => (Raise e, s)
    | None =>
        match get p (root s) with
        | None => (Raise (FileNotFoundError "chdir"), s)
        | Some (File _) => (Raise NotADirectoryError, s)
        | Some (Dir _) => (Ok tt, with_cwd p s)
        end
    end.

(** [os.chmod(p, mode)]: modes are not part of the tree *)
Definition chmod (fault : option exn) (p : path) : M unit :=
  fun s =>
    match get p (root s) with
    | None => (Raise (FileNotFoundError "chmod"), s)
    | Some _ =>
        match fault with
        | Some e => (Raise e, s)
        | None => (Ok tt, s)
        end
    end.

(** [p.read_text()]: the file is opened in text mode *)
Definition read_text (fault : option exn) (p : path) : M string :=
  fun s =>
    match get p (root s) with
    | None => (Raise (FileNotFoundError "open"), s)
    | Some (Dir _) => (Raise IsADirectoryError, s)
    | Some (File data) =>
        match fault with
        | Some e => (Raise e, s)
        | None => (Ok (newlines data), s)
        end
    end.

(** [open(p, mode="w")], writing [data], closing *)
Definition write_file (fault : option write_fault) (p : path) (data : string) : M unit :=
  fun s =>
    match get (removelast p) (root s) with
    | None => (Raise (FileNotFoundError "open"), s)
    | Some (File _) => (Raise NotADirectoryError, s)
    | Some (Dir _) =>
        match get p (root s) with
        | Some (Dir _) => (Raise IsADirectoryError, s)
        | _ =>
            match fault with
            | Some (OpenFails e) => (Raise e, s)
            | Some (WriteFails e n) =>
                (Raise e, with_root (set p (File (take n data)) (root s)) s)
            | None => (Ok tt, with_root (set p (File data) (root s)) s)
            end
        end
    end.

Definition path_eqb (p q : path) : bool :=
  if list_eq_dec string_dec p q then true else false.

(** [os.rename(src, dst)]: an existing file or empty directory of the same
    kind is replaced, anything else in the way is an error; the name [..]
    is the directory above and never free *)
Definition os_rename (fault : option exn) (src dst : path) : M unit :=
  fun s =>
    let move n := (Ok tt, with_root (set dst n (del src (root s))) s) in
    match fault with
    | Some e => (Raise e, s)
    | None =>
        match get src (root s) with
        | None => (Raise (FileNotFoundError "rename"), s)
        | Some n =>
            if String.eqb (last dst "") ".." then (Raise OSError, s)
            else if path_eqb src dst then (Ok tt, s)
            else
              match get dst (root s), n with
              | None, _ =>
                  match get (removelast dst) (root s) with
                  | Some (Dir _) => move n
                  | Some (File _) => (Raise NotADirectoryError, s)
                  | None => (Raise (FileNotFoundError "rename"), s)
                  end
              | Some (Dir []), Dir _ => move n
              | Some (Dir _), Dir _ => (Raise OSError, s)
              | Some (Dir _), File _ => (Raise IsADirectoryError, s)
              | Some (File _), Dir _ => (Raise NotADirectoryError, s)
              | Some (File _), File _ => move n
              end
        end
    end.

(** [str(p)] of an absolute path *)
Definition str_path (parent : string) (p : path) : string :=
  String.concat "/" (parent :: p).

(** the text an f-string or [str] makes of an optional value *)
Definition fstr (o : option string) : string :=
  match o with Some v => v | None => "None" end.

Definition fstr_path (parent : string) (o : option path) : string :=
  match o with Some p => str_path parent p | None => "None" end.

(** [sys.stdout.write(text)].  On a stream that is broken (closed, or a
    pipe nobody reads) every write fails; [fault] is the failure of this
    write, which either concerns this text alone (it cannot be encoded) or
    leaves the stream broken. *)
Definition sys_stdout_write (fault : option (exn * option exn)) (text : string)
  : M unit :=
  fun s =>
    match stdout_error s with
    | Some e => (Raise e, s)
    | None =>
        match fault with
        | Some (e, later) =>
            (Raise e, mkState (info s) (root s) (cwd s) (stdout s) (stderr s) later)
        | None =>
            (Ok tt, mkState (info s) (root s) (cwd s) (stdout s ++ [text])%list
                      (stderr s) None)
        end
    end.

Definition sys_stderr_write (text : string) : M unit :=
  fun s => (Ok tt, mkState (info s) (root s) (cwd s) (stdout s)
                     (stderr s ++ [text])%list (stdout_error s)).

(** ** The script *)

Section Script.
Variable py : pylib.
Variable env : environment.

(** [ScriptInfo.config_path()] *)
Definition config_path : M path :=
  fun s => (Ok (joinpath (cwd s) ["setup.cfg"]), s).

(** [ConfigParser.read] skips a file it cannot open *)
Definition load_cfg (config_path : path) : M config :=
  fun s =>
    match get config_path (root s) with
    | Some (File text) => (cfg_parse py text, s)
    | _ => (Ok empty_config, s)
    end.

Definition load_target_name : M unit :=
  fun s =>
    match nth_error (argv env) 1 with
    | None => (Raise (ValueError "new name must be passed with name=[name] param"), s)
    | Some a =>
        let s' := with_info (fun i => mkInfo (Some a) (name_original i)
                               (path_original i) (path_target i) (new_created i)) s in
        if String.eqb a ""
        then (Raise (ValueError "new name must be passed with name=[name] param"), s')
        else (Ok tt, s')
    end.

Definition make_new_directory : M unit :=
  fun s =>
    (* load current and new paths *)
    let original := cwd s in
    let target := joinpath (removelast original) [fstr (name_target (info s)) ++ "-py"] in
    let s1 := with_info (fun i => mkInfo (name_target i) (name_original i)
                           (Some original) (Some target) (new_created i)) s in
    (* throw error if new library directory already exists *)
    if present target (root s1)
    then (Raise (FileExistsError
                   ("directory " ++ str_path (parent_dir env) target ++ " exists")), s1)
    else if negb (one_step (fstr (name_target (info s)) ++ "-py"))
    then
      (* the target path leads through other directories *)
      (Beyond, s1)
    else
      (* create new directory and copy current contents *)
      match copytree (copytree_fault env) original target s1 with
      | (Raise e, s2) => (Raise e, s2)
      | (Beyond, s2) => (Beyond, s2)
      | (Ok _, s2) =>
          (Ok tt, with_info (fun i => mkInfo (name_target i) (name_original i)
                               (path_original i) (path_target i) true) s2)
      end.

Definition edit_cfg : M string :=
  fun s =>
    let target_name := name_target (info s) in
    (cp <- config_path ;;
     config <- load_cfg cp ;;
     old_name <- lift (cfg_get py config "metadata" "name") ;;
     config <- lift (cfg_set config "metadata" "name" target_name) ;;
     config <- lift (cfg_set config "coverage:run" "source" target_name) ;;
     config <- lift (cfg_set config "coverage:html" "title"
                       (Some ("coverage report for " ++ fstr target_name))) ;;
     config <- lift (cfg_set config "build_sphinx" "project" target_name) ;;
     cp <- config_path ;;
     write_file (cfg_write_fault env) cp (cfg_write config) ;;
     ret old_name) s.

Definition rewrite_sphinx_conf (target_name : string) : M unit :=
  fun s =>
    let template_path := joinpath (cwd s) ["zdocs"; "source"; "conf-template"] in
    let conf_path := joinpath (cwd s) ["zdocs"; "source"; "conf.py"] in
    (template_text <- read_text (template_read_fault env) template_path ;;
     write_file (conf_write_fault env) conf_path
       (replace "{lib-name-goes-here}" target_name template_text)) s.

(** [glob]'s star passes over names that start with a dot, and the
    directory part of the pattern keeps directories only *)
Definition hidden (name : string) : bool := String.prefix "." name.

Definition glob_star_dirs (d : dir) : list string :=
  map fst (filter (fun e => is_dir (snd e) && negb (hidden (fst e))) d).

(** [Path.with_name]: an empty name and the name [.] are refused; what
    becomes of a name with a separator depends on the version of [pathlib] *)
Definition with_name (new_name : string) : result string :=
  if negb (one_step new_name) then Beyond
  else if String.eqb new_name "" || String.eqb new_name "."
       then Raise (ValueError "Invalid name")
       else Ok new_name.

(** [next(count(1))] *)
Definition next_count (i : option nat) : nat :=
  match i with None => 1 | Some n => S n end.

(** the body of the loop of [rename_packages] for the directory
    [parent_name]; the generator has already confirmed its [__init__.py] *)
Definition rename_one (old_name target_name parent_name : string) : M unit :=
  fun s =>
    if String.eqb (lower parent_name) "zdevelop" then (Ok tt, s)
    else
      (new_name <- lift (new_package_name py old_name parent_name target_name) ;;
       target_name' <- lift (with_name new_name) ;;
       fun s1 =>
         match os_rename (rename_fault env parent_name)
                 (joinpath (cwd s1) [parent_name]) (joinpath (cwd s1) [target_name']) s1 with
         | (Raise (FileExistsError m), s2) =>
             (sys_stderr_write
                ("package '" ++ target_name ++ "' already exists, your current package names"
                 ++ "may not conform to illuscio's standards. All packages names should "
                 ++ "contain the root name of the library") ;;
              raise (FileExistsError m)) s2
         | r => r
         end) s.

(** [iglob] lists the working directory once and then, directory by
    directory, looks for the marker when the loop asks for the next item *)
Fixpoint rename_loop (old_name target_name : string) (names : list string)
    (i : option nat) : M (option nat) :=
  match names with
  | [] => ret i
  | parent_name :: rest =>
      fun s =>
        if present (joinpath (cwd s) [parent_name; "__init__.py"]) (root s)
        then (rename_one old_name target_name parent_name ;;
              rename_loop old_name target_name rest (Some (next_count i))) s
        else rename_loop old_name target_name rest i s
  end.

Definition rename_packages (old_name target_name : string) : M unit :=
  fun s =>
    let names := match get (cwd s) (root s) with
                 | Some (Dir d) => glob_star_dirs d
                 | _ => []
                 end in
    (i <- rename_loop old_name target_name names None ;;
     match i with
     | None => raise (FileNotFoundError "no packages found in library")
     | Some _ => ret tt
     end) s.

(** the [try] around the removal of the [.egg-info] directory *)
Definition remove_egg_info (path_egg : path) : M unit :=
  fun s =>
    match rmtree (egg_fault env) path_egg s with
    | (Raise PermissionError, s1) =>
        (chmod (egg_chmod_fault env) path_egg ;;
         rmtree (egg_retry_fault env) path_egg) s1
    | (Raise (FileNotFoundError _), s1) => (Ok tt, s1)
    | r => r
    end.

Definition alter_new : M unit :=
  (* edit the config file and get current name *)
  old_name <- edit_cfg ;;
  (* write new conf.py *)
  fun s =>
    match name_target (info s) with
    | None => (Raise AssertionError, s)
    | Some target_name =>
        (rewrite_sphinx_conf target_name ;;
         (* remove .egg info: the path is relative to the working directory,
            and followed when it is a single name *)
         (if one_step (old_name ++ ".egg-info")
          then remove_egg_info (joinpath (cwd s) [old_name ++ ".egg-info"])
          else beyond) ;;
         (* rename directory *)
         rename_packages old_name target_name) s
    end.

(** the path that [str(p)] names: [str(None)] is the relative path [None] *)
Definition path_of_str (s : state) (o : option path) : path :=
  match o with
  | Some p => p
  | None => joinpath (cwd s) ["None"]
  end.

(** the body of the [try] of [main] *)
Definition guarded : M unit :=
  load_target_name ;;
  make_new_directory ;;
  (* change working directory to new directory *)
  (fun s => chdir (chdir_fault env) (path_of_str s (path_target (info s))) s) ;;
  (* make alterations to new directory *)
  alter_new ;;
  (* write result path to std out *)
  fun s => sys_stdout_write (stdout_fault env)
             (fstr_path (parent_dir env) (path_target (info s))) s.

(** [rmtree(str(p))] for an optional path *)
Definition rmtree_opt (fault : option (exn * dir)) (o : option path) : M unit :=
  fun s => rmtree fault (path_of_str s o) s.

Definition main : M unit :=
  fun s =>
    match guarded s with
    | (Raise this_error, s1) =>
        (* clean up the new directory if this script created it *)
        if new_created (info s1)
        then (rmtree_opt (rollback_fault env) (path_target (info s1)) ;;
              raise this_error) s1
        else (Raise this_error, s1)
    | (Ok _, s1) =>
        (* everything went as planned: remove the old directory *)
        rmtree_opt (commit_fault env) (path_original (info s1)) s1
    | (Beyond, s1) => (Beyond, s1)
    end.

(** the [__main__] block; the sentinel is one ASCII digit, whose write
    fails on a broken stream only *)
Definition script : M unit :=
  fun s =>
    match main s with
    | (Raise error, s1) =>
        (* tell Make script not to continue *)
        (sys_stdout_write None "0" ;; raise error) s1
    | r => r
    end.

End Script.

(** ** An instance of the library routines that computes

    [plain_py] answers as CPython does on the inputs it is used for below:
    ASCII texts, patterns made of ordinary characters, replacement texts
    without a backslash, values without a percent sign, and files laid out
    the way [ConfigParser.write] lays them out (headers, [key = value]
    lines that start in the first column, blank lines, whole-line
    comments).  Outside of that it answers [Beyond]. *)

Definition backslash : ascii := "092".

Definition regex_special (c : ascii) : bool :=
  has_char c ".^$*+?{}[]|()" || Ascii.eqb c backslash.

(** every match of the literal [pattern], letters compared without case *)
Fixpoint sub_from (pattern repl s : string) (skip : nat) : string :=
  match s with
  | EmptyString => EmptyString
  | String c s' =>
      match skip with
      | S k => sub_from pattern repl s' k
      | 0 =>
          if String.prefix (lower pattern) (lower s)
          then repl ++ sub_from pattern repl s' (String.length pattern - 1)
          else String c (sub_from pattern repl s' 0)
      end
  end.

Definition plain_re_sub (pattern repl s : string) : result string :=
  if is_ascii pattern && is_ascii s
     && all_chars (fun c => negb (regex_special c)) pattern
     && negb (has_char backslash repl)
  then Ok (match pattern with
           | EmptyString => intersperse_with repl s
           | _ => sub_from pattern repl s 0
           end)
  else Beyond.

Definition plain_before_get (_ : config) (_ _ : string) (value : string) : result string :=
  if has_char "%" value then Beyond else Ok value.

Fixpoint split_lines (s : string) : list string :=
  match s with
  | EmptyString => [EmptyString]
  | String c s' =>
      match split_lines s' with
      | l :: ls => if Ascii.eqb c "010" then EmptyString :: l :: ls else String c l :: ls
      | [] => [String c EmptyString]
      end
  end.

(** the ASCII characters that [str.strip] and [\s] take for white space *)
Definition py_space (c : ascii) : bool :=
  let n := nat_of_ascii c in
  (Nat.leb 9 n && Nat.leb n 13) || (Nat.leb 28 n && Nat.leb n 32).

Fixpoint lstrip (s : string) : string :=
  match s with
  | String c s' => if py_space c then lstrip s' else s
  | EmptyString => EmptyString
  end.

Fixpoint rstrip (s : string) : string :=
  match s with
  | EmptyString => EmptyString
  | String c s' =>
      match rstrip s' with
      | EmptyString => if py_space c then EmptyString else String c EmptyString
      | r => String c r
      end
  end.

Definition delimiter (c : ascii) : bool := Ascii.eqb c "=" || Ascii.eqb c ":".

(** the text before and after the first [=] or [:] *)
Fixpoint split_delimiter (s : string) : option (string * string) :=
  match s with
  | EmptyString => None
  | String c s' =>
      if delimiter c then Some (EmptyString, s')
      else match split_delimiter s' with
           | Some (k, v) => Some (String c k, v)
           | None => None
           end
  end.

(** the name in a header line [[name]] with nothing after it *)
Definition header_name (line : string) : option string :=
  match line with
  | String "[" r =>
      match find_char "]" r with
      | Some (S n, EmptyString) => Some (take (S n) r)
      | _ => None
      end
  | _ => None
  end.

(** a new section; one that is there already, or DEFAULT, is left to the
    library *)
Definition add_section (name : string) (c : config) : result config :=
  if String.eqb name "DEFAULT" then Beyond
  else match lookup name (sections c) with
       | Some _ => Beyond
       | None => Ok (mkConfig (defaults c) (put name [] (sections c)))
       end.

Definition add_option (section key value : string) (c : config) : result config :=
  match lookup section (sections c) with
  | None => Beyond
  | Some d =>
      match lookup key d with
      | Some _ => Beyond
      | None => Ok (mkConfig (defaults c) (put section (put key value d) (sections c)))
      end
  end.

Fixpoint parse_lines (ls : list string) (cursect : option string) (c : config)
  : result config :=
  match ls with
  | [] => Ok c
  | line :: rest =>
      match lstrip line with
      | EmptyString => parse_lines rest cursect c
      | String first _ =>
          if Ascii.eqb first "#" || Ascii.eqb first ";" then parse_lines rest cursect c
          else if negb (String.eqb (lstrip line) line) then Beyond
          else if Ascii.eqb first "["
          then match header_name (rstrip line) with
               | None => Beyond
               | Some name =>
                   match add_section name c with
                   | Ok c' => parse_lines rest (Some name) c'
                   | _ => Beyond
                   end
               end
          else match cursect with
               | None => Beyond
               | Some section =>
                   match split_delimiter line with
                   | None => Beyond
                   | Some (k, v) =>
                       match rstrip k with
                       | EmptyString => Beyond
                       | key =>
                           match add_option section (lower key) (rstrip (lstrip v)) c with
                           | Ok c' => parse_lines rest cursect c'
                           | _ => Beyond
                           end
                       end
                   end
               end
      end
  end.

(** the file is read in text mode, line by line *)
Definition plain_cfg_parse (text : string) : result config :=
  if is_ascii text
  then parse_lines (split_lines (newlines text)) None empty_config
  else Beyond.

Definition plain_py : pylib :=
  {| re_sub := plain_re_sub;
     cfg_parse := plain_cfg_parse;
     before_get := plain_before_get |}.

(** *** A sample project *)

Definition nl : string := String "010" EmptyString.

Definition widgets_cfg : string :=
  "[metadata]" ++ nl ++ "name = widgets" ++ nl ++ nl ++
  "[coverage:run]" ++ nl ++ "source = widgets" ++ nl ++ nl ++
  "[coverage:html]" ++ nl ++ "title = coverage report for widgets" ++ nl ++ nl ++
  "[build_sphinx]" ++ nl ++ "project = widgets" ++ nl ++ nl.

Definition widgets_docs : node :=
  Dir [("source", Dir [("conf-template", File "project = '{lib-name-goes-here}'")])].

Definition package : node := Dir [("__init__.py", File "")].

Definition widgets_project : dir :=
  [("setup.cfg", File widgets_cfg);
   ("zdocs", widgets_docs);
   ("widgets", package)].

(** no call fails for an outside reason *)
Definition calm (args : list string) : environment :=
  {| argv := args; parent_dir := "/home/dev";
     copytree_fault := None; chdir_fault := None; cfg_write_fault := None;
     template_read_fault := None; conf_write_fault := None;
     egg_fault := None; egg_chmod_fault := None; egg_retry_fault := None;
     rename_fault := fun _ => None; stdout_fault := None;
     rollback_fault := None; commit_fault := None |}.

(** ** NameSubstitution as the specification words it *)

Fixpoint replace_first_ic (old new s : string) : string :=
  if String.prefix (lower old) (lower s)
  then new ++ drop (String.length old) s
  else match s with
       | EmptyString => EmptyString
       | String c s' => String c (replace_first_ic old new s')
       end.

Definition spec_rename (oldLibName currentPkgName targetLibName : string) : string :=
  if contains (lower oldLibName) (lower currentPkgName)
  then replace_first_ic oldLibName targetLibName currentPkgName
  else targetLibName.

(** ** Vocabulary of the properties *)

(** [section] is not the DEFAULT section *)
Definition named_section (section : string) : Prop :=
  String.eqb section "" || String.eqb section "DEFAULT" = false.

(** the four values [edit_cfg] stores *)
Definition renamed (target : string) (c : config) : Prop :=
  raw_get c "metadata" "name" = Ok target /\
  raw_get c "coverage:run" "source" = Ok target /\
  raw_get c "coverage:html" "title" = Ok ("coverage report for " ++ target) /\
  raw_get c "build_sphinx" "project" = Ok target.


(** the values that [set] lets through: the empty one, and those in which
    no [%] is left once [%%] and [%(name)s] are taken out *)
Definition accepted (v : string) : bool :=
  String.eqb v "" || negb (has_char "%" (strip_keys (replace "%%" "" v) 0)).

(** the first of the three other sections that a configuration lacks *)
Definition first_missing (c : config) : option string :=
  find (fun section => match lookup section (sections c) with
                       | None => true
                       | Some _ => false
                       end)
       ["coverage:run"; "coverage:html"; "build_sphinx"].

(** *** Configurations that [write] lays out so that they read back

    ASCII names, keys and values on one line, without white space at
    either end; keys in lower case, without a delimiter, not starting like
    a comment or a header; no name or key twice; nothing in DEFAULT. *)














(** what becomes of a result *)
Definition and_then {A B} (r : result A) (k : A -> result B) : result B :=
  match r with
  | Ok a => k a
  | Raise e => Raise e
  | Beyond => Beyond
  end.

(** the configuration after the four assignments of [edit_cfg] *)
Definition edited (c0 : config) (target_name : option string) : result config :=
  and_then (cfg_set c0 "metadata" "name" target_name) (fun c1 =>
  and_then (cfg_set c1 "coverage:run" "source" target_name) (fun c2 =>
  and_then (cfg_set c2 "coverage:html" "title"
              (Some ("coverage report for " ++ fstr target_name))) (fun c3 =>
  cfg_set c3 "build_sphinx" "project" target_name))).

(** the working directory is the entry [x], a directory *)
Definition at_home (x : string) (s : state) : Prop :=
  cwd s = [x] /\ exists d, lookup x (root s) = Some (Dir d).

(** [s'] differs from [s] below the entry [x] at most *)
Record below (x : string) (s s' : state) : Prop := mkBelow {
  below_home : at_home x s';
  below_info : info s' = info s;
  below_stdout : stdout s' = stdout s;
  below_stream : stdout_error s' = stdout_error s;
  below_others : forall y, x <> y -> lookup y (root s') = lookup y (root s)
}.

(** the files directly in [x] are as they were *)
Definition files_kept (x : string) (s s' : state) : Prop :=
  forall a data,
    get [x; a] (root s) = Some (File data) -> get [x; a] (root s') = Some (File data).

Definition local {A} (x : string) (m : M A) : Prop :=
  forall s r s', at_home x s -> m s = (r, s') -> below x s s'.

Definition gentle {A} (x : string) (m : M A) : Prop :=
  forall s r s', at_home x s -> m s = (r, s') -> below x s s' /\ files_kept x s s'.

(** the states between the first steps *)
Definition named (project target : string) (r : dir) : state :=
  mkState (mkInfo (Some target) None None None false) r [project] [] [] None.

Definition measured (project target : string) (r : dir) : state :=
  mkState (mkInfo (Some target) None (Some [project]) (Some [target ++ "-py"]) false)
          r [project] [] [] None.

Definition copied (project target : string) (d0 : dir) (r : dir) : state :=
  mkState (mkInfo (Some target) None (Some [project]) (Some [target ++ "-py"]) true)
          (set [target ++ "-py"] (Dir d0) r) [project] [] [] None.

(** ** Sample runs *)

Definition sample_argv : list string := ["py_make_name.py"; "gadgets"].

Definition sample_root : dir := [("widgets-py", Dir widgets_project)].

(** a library with a second package named after it *)
Definition two_packages : dir :=
  [("setup.cfg", File widgets_cfg);
   ("zdocs", widgets_docs);
   ("widgets", package);
   ("widgets_cli", package)].

(** the internal-tooling directory is the only one with a marker *)
Definition tooling_only : dir :=
  [("setup.cfg", File widgets_cfg);
   ("zdocs", widgets_docs);
   ("zdevelop", package)].

(** no directory has a marker *)
Definition no_packages : dir :=
  [("setup.cfg", File widgets_cfg);
   ("zdocs", widgets_docs)].

(** a configuration without the [coverage:run] section *)
Definition bare_config : config :=
  mkConfig [] [("metadata", [("name", "widgets")]);
               ("coverage:html", [("title", "coverage report for widgets")]);
               ("build_sphinx", [("project", "widgets")])].

Definition bare_project : dir :=
  [("setup.cfg", File (cfg_write bare_config));
   ("zdocs", widgets_docs);
   ("widgets", package)].

(** [calm] with three of its calls failing as given *)
Definition troubled (copy : option (exn * option dir)) (save : option write_fault)
    (commit : option (exn * dir)) : environment :=
  {| argv := sample_argv; parent_dir := "/home/dev";
     copytree_fault := copy; chdir_fault := None; cfg_write_fault := save;
     template_read_fault := None; conf_write_fault := None;
     egg_fault := None; egg_chmod_fault := None; egg_retry_fault := None;
     rename_fault := fun _ => None; stdout_fault := None;
     rollback_fault := None; commit_fault := commit |}.

(** the copy stops at an unreadable file, [setup.cfg] already copied *)
Definition copy_stops : environment :=
  troubled (Some (ShutilError, Some [("setup.cfg", File widgets_cfg)])) None None.

(** the disk fills up after the first line of [setup.cfg] *)
Definition disk_full : environment :=
  troubled None (Some (WriteFails OSError 11)) None.

(** a file of the original tree cannot be deleted *)
Definition stuck_file : environment :=
  troubled None None (Some (PermissionError, [("widgets", package)])).

(** the state in the copy, before [alter_new] *)
Definition in_copy (project : dir) : state :=
  with_cwd ["gadgets-py"] (copied "widgets-py" "gadgets" project
                             [("widgets-py", Dir project)]).

(** where the sample runs end *)
Definition no_packages_stop : state :=
  Eval vm_compute in
    snd (guarded plain_py (calm sample_argv)
           (initial "widgets-py" [("widgets-py", Dir no_packages)])).

Definition sample_done : state :=
  Eval vm_compute in
    snd (main plain_py (calm sample_argv) (initial "widgets-py" sample_root)).

Definition sample_renamed : state :=
  Eval vm_compute in
    snd (guarded plain_py stuck_file (initial "widgets-py" sample_root)).





Definition torn_copy : state :=
  Eval vm_compute in snd (edit_cfg plain_py disk_full (in_copy widgets_project)).

(** ** The claims of the specification that the script does not meet,
    as the specification states them *)

(** every run that fails once the flag is set leaves no destination and
    the original as it was *)
Definition spec_failure_rolls_back : Prop :=
  forall py env project r e s' target,
    main py env (initial project r) = (Raise e, s') ->
    new_created (info s') = true ->
    path_target (info s') = Some [target] ->
    lookup target (root s') = None /\
    lookup project (root s') = lookup project r.


(** [set] creates the section if it is absent *)
Definition spec_set_creates_section : Prop :=
  forall c section opt v,
    exists c', cfg_set c section opt (Some v) = Ok c' /\
               raw_get c' section opt = Ok v.

(** a save that fails leaves the file on disk unchanged *)
Definition spec_save_atomic : Prop :=
  forall py env x s e s',
    cwd s = [x] ->
    edit_cfg py env s = (Raise e, s') ->
    get [x; "setup.cfg"] (root s') = get [x; "setup.cfg"] (root s).

(** ** More sample runs *)

(** the destination cannot be deleted again: its [zdocs] stays *)
Definition stubborn_copy : environment :=
  {| argv := sample_argv; parent_dir := "/home/dev";
     copytree_fault := None; chdir_fault := None; cfg_write_fault := None;
     template_read_fault := None; conf_write_fault := None;
     egg_fault := None; egg_chmod_fault := None; egg_retry_fault := None;
     rename_fault := fun _ => None; stdout_fault := None;
     rollback_fault := Some (PermissionError, [("zdocs", widgets_docs)]);
     commit_fault := None |}.

Definition no_packages_left : state :=
  Eval vm_compute in
    snd (main plain_py stubborn_copy
           (initial "widgets-py" [("widgets-py", Dir no_packages)])).

Definition sample_edited : state :=
  Eval vm_compute in snd (edit_cfg plain_py (calm sample_argv) (in_copy widgets_project)).

(** nobody reads standard output any more when the path is written *)
Definition closed_pipe : environment :=
  {| argv := sample_argv; parent_dir := "/home/dev";
     copytree_fault := None; chdir_fault := None; cfg_write_fault := None;
     template_read_fault := None; conf_write_fault := None;
     egg_fault := None; egg_chmod_fault := None; egg_retry_fault := None;
     rename_fault := fun _ => None; stdout_fault := Some (OSError, Some OSError);
     rollback_fault := None; commit_fault := None |}.

Definition closed_pipe_stop : state :=
  Eval vm_compute in
    snd (guarded plain_py closed_pipe (initial "widgets-py" sample_root)).

(** the [.egg-info] directory is locked, and still is after [chmod] *)
Definition locked_egg : environment :=
  {| argv := sample_argv; parent_dir := "/home/dev";
     copytree_fault := None; chdir_fault := None; cfg_write_fault := None;
     template_read_fault := None; conf_write_fault := None;
     egg_fault := Some (PermissionError, [("PKG-INFO", File "")]);
     egg_chmod_fault := None;
     egg_retry_fault := Some (FileNotFoundError "rmtree", [("PKG-INFO", File "")]);
     rename_fault := fun _ => None; stdout_fault := None;
     rollback_fault := None; commit_fault := None |}.

Definition with_egg_info : dir :=
  ("widgets.egg-info", Dir [("PKG-INFO", File "")]) :: widgets_project.

(** ** Vocabulary of the further properties *)

(** the diagnostic of [rename_packages] *)
Definition collision_message (target_name : string) : string :=
  "package '" ++ target_name ++ "' already exists, your current package names"
  ++ "may not conform to illuscio's standards. All packages names should "
  ++ "contain the root name of the library".

(** standard error grows by the diagnostic at most, and then the step
    raises [FileExistsError] *)
Definition diagnosed {A} (target_name : string) (s : state) (res : result A)
    (s' : state) : Prop :=
  stderr s' = stderr s \/
  exists m,
    res = Raise (FileExistsError m) /\
    stderr s' = (stderr s ++ [collision_message target_name])%list.

(** the state once the directory [p] of [x] has become [n] *)
Definition moved_state (x p n : string) (node_p : dir) (s : state) : state :=
  with_root (set [x; n] (Dir node_p) (del [x; p] (root s))) s.

(** * Properties *)

(** ** Association lists *)

Section AssocFacts.
Context {V : Type}.
Implicit Types (k : string) (l : list (string * V)).

Lemma lookup_put_same k v l : lookup k (put k v l) = Some v.
Proof.
  induction l as [|[k' v'] l IH]; simpl.
  - now rewrite String.eqb_refl.
  - destruct (String.eqb k k') eqn:E; simpl; rewrite E; auto.
Qed.

Lemma lookup_put_other k k' v l : k <> k' -> lookup k' (put k v l) = lookup k' l.
Proof.
  intros N. induction l as [|[k0 v0] l IH]; simpl.
  - destruct (String.eqb k' k) eqn:E; auto.
    apply String.eqb_eq in E. congruence.
  - destruct (String.eqb k k0) eqn:E; simpl; [|now rewrite IH].
    apply String.eqb_eq in E. subst k0.
    destruct (String.eqb k' k) eqn:E'; auto.
    apply String.eqb_eq in E'. congruence.
Qed.

Lemma lookup_remove_same k l : lookup k (remove k l) = None.
Proof.
  induction l as [|[k0 v0] l IH]; simpl; auto.
  destruct (String.eqb k k0) eqn:E; simpl; auto. now rewrite E.
Qed.

Lemma lookup_remove_other k k' l : k <> k' -> lookup k' (remove k l) = lookup k' l.
Proof.
  intros N. induction l as [|[k0 v0] l IH]; simpl; auto.
  destruct (String.eqb k k0) eqn:E; simpl.
  - apply String.eqb_eq in E. subst k0.
    destruct (String.eqb k' k) eqn:E'; auto.
    apply String.eqb_eq in E'. congruence.
  - now rewrite IH.
Qed.

End AssocFacts.

(** ** The file tree: what a change below one entry leaves alone *)

Lemma set_at_dir p new n : p <> [] -> is_dir n = true -> is_dir (set_at p new n) = true.
Proof.
  destruct p as [|x p]; [congruence|]. intros _ D.
  destruct n as [|d]; [discriminate|]. simpl.
  destruct p; [reflexivity|]. now destruct (lookup x d).
Qed.

Lemma del_at_dir p n : is_dir n = true -> is_dir (del_at p n) = true.
Proof.
  intros D. destruct n as [|d]; [discriminate|].
  destruct p as [|x p]; [reflexivity|]. simpl.
  destruct p; [reflexivity|]. now destruct (lookup x d).
Qed.

Lemma lookup_set_other x p new r y :
  x <> y -> lookup y (set (x :: p) new r) = lookup y r.
Proof.
  intros N. unfold set. simpl. destruct p.
  - simpl. now apply lookup_put_other.
  - destruct (lookup x r); simpl; auto. now apply lookup_put_other.
Qed.

Lemma lookup_del_other x p r y :
  x <> y -> lookup y (del (x :: p) r) = lookup y r.
Proof.
  intros N. unfold del. simpl. destruct p.
  - simpl. now apply lookup_remove_other.
  - destruct (lookup x r); simpl; auto. now apply lookup_put_other.
Qed.

Lemma lookup_set_top x new r : lookup x (set [x] new r) = Some new.
Proof. unfold set. simpl. apply lookup_put_same. Qed.

Lemma lookup_del_top x r : lookup x (del [x] r) = None.
Proof. unfold del. simpl. apply lookup_remove_same. Qed.

Lemma set_below_eq x y p new r c :
  lookup x r = Some c -> set (x :: y :: p) new r = put x (set_at (y :: p) new c) r.
Proof. intros L. unfold set. cbn [set_at]. now rewrite L. Qed.

Lemma del_below_eq x y p r c :
  lookup x r = Some c -> del (x :: y :: p) r = put x (del_at (y :: p) c) r.
Proof. intros L. unfold del. cbn [del_at]. now rewrite L. Qed.

(** a change strictly below the entry [x] keeps [x] a directory *)
Lemma lookup_set_below x y p new r d :
  lookup x r = Some (Dir d) ->
  exists d', lookup x (set (x :: y :: p) new r) = Some (Dir d').
Proof.
  intros L. rewrite (set_below_eq _ _ _ _ _ _ L), lookup_put_same.
  assert (H : is_dir (set_at (y :: p) new (Dir d)) = true)
    by (apply set_at_dir; [discriminate|reflexivity]).
  destruct (set_at (y :: p) new (Dir d)) as [|d']; [discriminate|eauto].
Qed.

Lemma lookup_del_below x y p r d :
  lookup x r = Some (Dir d) ->
  exists d', lookup x (del (x :: y :: p) r) = Some (Dir d').
Proof.
  intros L. rewrite (del_below_eq _ _ _ _ _ L), lookup_put_same.
  assert (H : is_dir (del_at (y :: p) (Dir d)) = true)
    by (now apply del_at_dir).
  destruct (del_at (y :: p) (Dir d)) as [|d']; [discriminate|eauto].
Qed.

Lemma get_top x r : get [x] r = lookup x r.
Proof. unfold get. simpl. now destruct (lookup x r). Qed.

Lemma get_two x a r :
  get [x; a] r = match lookup x r with
                 | Some (Dir d) => lookup a d
                 | _ => None
                 end.
Proof.
  unfold get. cbn [get_at]. destruct (lookup x r) as [[|d]|]; auto.
  now destruct (lookup a d).
Qed.

Lemma get_set_sibling x a b q new r :
  b <> a -> get [x; a] (set (x :: b :: q) new r) = get [x; a] r.
Proof.
  intros N. destruct (lookup x r) as [c|] eqn:L.
  - rewrite (set_below_eq _ _ _ _ _ _ L), !get_two, lookup_put_same, L.
    destruct c as [|d]; [destruct q; reflexivity|].
    cbn [set_at]. destruct q.
    + now rewrite lookup_put_other.
    + destruct (lookup b d); [now rewrite lookup_put_other|reflexivity].
  - unfold set. cbn [set_at]. now rewrite L.
Qed.

Lemma get_del_sibling x a b q r :
  b <> a -> get [x; a] (del (x :: b :: q) r) = get [x; a] r.
Proof.
  intros N. destruct (lookup x r) as [c|] eqn:L.
  - rewrite (del_below_eq _ _ _ _ _ L), !get_two, lookup_put_same, L.
    destruct c as [|d]; [destruct q; reflexivity|].
    cbn [del_at]. destruct q.
    + now rewrite lookup_remove_other.
    + destruct (lookup b d); [now rewrite lookup_put_other|reflexivity].
  - unfold del. cbn [del_at]. now rewrite L.
Qed.

(** writing three or more levels down leaves the files of the first level *)
Lemma get_set_deep x a b c q new r data :
  get [x; a] r = Some (File data) ->
  get [x; a] (set (x :: b :: c :: q) new r) = Some (File data).
Proof.
  intros G. destruct (String.eqb b a) eqn:E.
  - apply String.eqb_eq in E. subst b. rewrite get_two in G.
    destruct (lookup x r) as [[|d]|] eqn:L; try discriminate.
    rewrite (set_below_eq _ _ _ _ _ _ L), get_two, lookup_put_same.
    cbn [set_at]. rewrite G. cbn [set_at]. rewrite lookup_put_same.
    now destruct q.
  - apply String.eqb_neq in E. now rewrite get_set_sibling.
Qed.

(** ** Steps that stay inside the working directory *)


Lemma below_refl x s : at_home x s -> below x s s.
Proof. now constructor. Qed.

Lemma below_trans x s1 s2 s3 : below x s1 s2 -> below x s2 s3 -> below x s1 s3.
Proof.
  intros [H1 I1 O1 T1 L1] [H2 I2 O2 T2 L2]. constructor; try congruence.
  intros y N. now rewrite L2, L1.
Qed.

Lemma below_with_root x s r' :
  at_home x s ->
  (exists d, lookup x r' = Some (Dir d)) ->
  (forall y, x <> y -> lookup y r' = lookup y (root s)) ->
  below x s (with_root r' s).
Proof.
  intros [C _] D O.
  constructor; [split; [exact C|exact D]|reflexivity|reflexivity|reflexivity|exact O].
Qed.

Lemma below_stderr x s text :
  at_home x s ->
  below x s (mkState (info s) (root s) (cwd s) (stdout s) (stderr s ++ [text])%list
               (stdout_error s)).
Proof. intros H. now constructor. Qed.

Lemma gentle_local {A} x (m : M A) : gentle x m -> local x m.
Proof. intros G s r s' H E. now destruct (G s r s' H E). Qed.

Lemma local_ret {A} x (a : A) : local x (ret a).
Proof. intros s r s' H E. inversion E; subst. now apply below_refl. Qed.

Lemma local_lift {A} x (a : result A) : local x (lift a).
Proof. intros s r s' H E. inversion E; subst. now apply below_refl. Qed.

Lemma local_bind {A B} x (m : M A) (k : A -> M B) :
  local x m -> (forall a, local x (k a)) -> local x (bind m k).
Proof.
  intros Hm Hk s r s' H E. unfold bind in E.
  destruct (m s) as [[a|e|] s1] eqn:Em.
  - pose proof (Hm _ _ _ H Em) as B1.
    eapply below_trans; [exact B1|]. eapply Hk; [apply B1|exact E].
  - inversion E; subst. eapply Hm; eauto.
  - inversion E; subst. eapply Hm; eauto.
Qed.

Lemma gentle_ret {A} x (a : A) : gentle x (ret a).
Proof. intros s r s' H E. inversion E; subst. split; [now apply below_refl|now intros ? ?]. Qed.

Lemma gentle_raise {A} x e : gentle x (@raise A e).
Proof. intros s r s' H E. inversion E; subst. split; [now apply below_refl|now intros ? ?]. Qed.

Lemma gentle_lift {A} x (a : result A) : gentle x (lift a).
Proof. intros s r s' H E. inversion E; subst. split; [now apply below_refl|now intros ? ?]. Qed.

Lemma gentle_bind {A B} x (m : M A) (k : A -> M B) :
  gentle x m -> (forall a, gentle x (k a)) -> gentle x (bind m k).
Proof.
  intros Hm Hk s r s' H E. unfold bind in E.
  destruct (m s) as [[a|e|] s1] eqn:Em.
  - destruct (Hm _ _ _ H Em) as [B1 F1].
    destruct (Hk a _ _ _ (below_home _ _ _ B1) E) as [B2 F2].
    split; [eapply below_trans; eauto|]. intros b data G. auto.
  - inversion E; subst. eapply Hm; eauto.
  - inversion E; subst. eapply Hm; eauto.
Qed.

(** a computation that first looks at the state *)
Lemma gentle_reading {A} x (f : state -> M A) :
  (forall s0, at_home x s0 -> gentle x (f s0)) -> gentle x (fun s => f s s).
Proof. intros Hf s r s' H E. exact (Hf s H s r s' H E). Qed.

Lemma local_reading {A} x (f : state -> M A) :
  (forall s0, at_home x s0 -> local x (f s0)) -> local x (fun s => f s s).
Proof. intros Hf s r s' H E. exact (Hf s H s r s' H E). Qed.

Ltac unchanged H :=
  subst; first [ now apply below_refl
               | split; [now apply below_refl | now intros ? ?] ].

Lemma gentle_read_text x fault p : gentle x (read_text fault p).
Proof.
  intros s r s' H E. unfold read_text in E.
  destruct (get p (root s)) as [[data|d]|]; [destruct fault| |];
    inversion E; unchanged H.
Qed.

Lemma gentle_chmod x fault p : gentle x (chmod fault p).
Proof.
  intros s r s' H E. unfold chmod in E.
  destruct (get p (root s)); [destruct fault|]; inversion E; unchanged H.
Qed.

Lemma gentle_stderr x text : gentle x (sys_stderr_write text).
Proof.
  intros s r s' H E. inversion E; subst.
  split; [now apply below_stderr|now intros ? ?].
Qed.

Lemma below_set x y q new s :
  at_home x s -> below x s (with_root (set (x :: y :: q) new (root s)) s).
Proof.
  intros H. apply below_with_root; auto.
  - destruct H as [_ [d L]]. eapply lookup_set_below; eauto.
  - intros z N. now apply lookup_set_other.
Qed.

Lemma below_del x y q s :
  at_home x s -> below x s (with_root (del (x :: y :: q) (root s)) s).
Proof.
  intros H. apply below_with_root; auto.
  - destruct H as [_ [d L]]. eapply lookup_del_below; eauto.
  - intros z N. now apply lookup_del_other.
Qed.

Lemma local_write_file x y q fault data : local x (write_file fault (x :: y :: q) data).
Proof.
  intros s r s' H E. unfold write_file in E.
  destruct (get (removelast (x :: y :: q)) (root s)) as [[?|?]|];
    [inversion E; unchanged H| |inversion E; unchanged H].
  destruct (get (x :: y :: q) (root s)) as [[?|?]|];
    [|inversion E; unchanged H|];
    (destruct fault as [[e|e n]|]; inversion E; subst;
     [now apply below_refl|now apply below_set..]).
Qed.

Lemma gentle_write_file x y z q fault data :
  gentle x (write_file fault (x :: y :: z :: q) data).
Proof.
  intros s r s' H E. split; [eapply local_write_file; eauto|].
  unfold write_file in E.
  destruct (get (removelast (x :: y :: z :: q)) (root s)) as [[?|?]|];
    [inversion E; subst; now intros ? ?| |inversion E; subst; now intros ? ?].
  destruct (get (x :: y :: z :: q) (root s)) as [[?|?]|];
    [|inversion E; subst; now intros ? ?|];
    (destruct fault as [[e|e n]|]; inversion E; subst; intros a data' G;
     [exact G|now apply get_set_deep..]).
Qed.

Lemma gentle_rmtree x y fault : gentle x (rmtree fault [x; y]).
Proof.
  intros s r s' H E. unfold rmtree in E.
  destruct (get [x; y] (root s)) as [[?|?]|] eqn:G;
    [inversion E; unchanged H| |inversion E; unchanged H].
  assert (N : forall a data, get [x; a] (root s) = Some (File data) -> y <> a)
    by (intros a data Ga ->; congruence).
  destruct fault as [[e rest]|]; inversion E; subst.
  - split; [now apply below_set|].
    intros a data Ga. cbn [root with_root]. rewrite get_set_sibling; eauto.
  - split; [now apply below_del|].
    intros a data Ga. cbn [root with_root]. rewrite get_del_sibling; eauto.
Qed.

(** renaming a directory of [x] to another name in [x] *)
Lemma gentle_os_rename x p n fault s r s' d :
  at_home x s ->
  get [x; p] (root s) = Some (Dir d) ->
  os_rename fault [x; p] [x; n] s = (r, s') ->
  below x s s' /\ files_kept x s s'.
Proof.
  intros H G E. unfold os_rename in E. rewrite G in E.
  assert (Hp : forall a data, get [x; a] (root s) = Some (File data) -> p <> a)
    by (intros a data Ga ->; congruence).
  assert (Hmove : get [x; n] (root s) = None \/ get [x; n] (root s) = Some (Dir []) ->
                  let s2 := with_root (set [x; n] (Dir d) (del [x; p] (root s))) s in
                  below x s s2 /\ files_kept x s s2).
  { intros Gn. split.
    - eapply below_trans; [apply (below_del x p [] s H)|].
      apply (below_set x n [] (Dir d) (with_root (del [x; p] (root s)) s)).
      apply (below_home _ _ _ (below_del x p [] s H)).
    - intros a data Ga. cbn [root with_root].
      rewrite get_set_sibling, get_del_sibling; eauto.
      intros ->. destruct Gn; congruence. }
  destruct fault as [e|]; [inversion E; unchanged H|].
  destruct (String.eqb (last [x; n] "") ".."); [inversion E; unchanged H|].
  destruct (path_eqb [x; p] [x; n]); [inversion E; unchanged H|].
  destruct (get [x; n] (root s)) as [[?|[|? ?]]|] eqn:Gn;
    [inversion E; unchanged H
    |inversion E; subst; apply Hmove; auto
    |inversion E; unchanged H|].
  destruct (get (removelast [x; n]) (root s)) as [[?|?]|];
    inversion E; subst; try unchanged H; apply Hmove; auto.
Qed.

(** ** ConfigStore *)

Lemma before_set_value v v' : before_set v = Ok v' -> v' = v.
Proof. unfold before_set. destruct (has_char _ _); congruence. Qed.


Lemma cfg_set_inv c section opt value c' :
  named_section section ->
  cfg_set c section opt value = Ok c' ->
  exists v d, value = Some v /\ lookup section (sections c) = Some d /\
              c' = mkConfig (defaults c) (put section (put (lower opt) v d) (sections c)).
Proof.
  unfold named_section, cfg_set. intros N E. destruct value as [v|]; [|discriminate].
  destruct (if String.eqb v "" then Ok v else before_set v) as [v'| |] eqn:B;
    [|discriminate..].
  assert (v' = v) by (destruct (String.eqb v ""); [congruence|now apply before_set_value]).
  subst v'. rewrite N in E. destruct (lookup section (sections c)) as [d|]; [|discriminate].
  inversion E. eauto.
Qed.

Lemma cfg_set_get_same c section opt value c' :
  named_section section ->
  cfg_set c section opt value = Ok c' ->
  exists v, value = Some v /\ raw_get c' section opt = Ok v.
Proof.
  intros N E. destruct (cfg_set_inv _ _ _ _ _ N E) as (v & d & -> & L & ->).
  exists v. split; auto. unfold raw_get, section_dict. cbn [sections defaults].
  now rewrite !lookup_put_same.
Qed.

Lemma cfg_set_get_other c section opt value c' section' opt' :
  named_section section -> section <> section' ->
  cfg_set c section opt value = Ok c' ->
  raw_get c' section' opt' = raw_get c section' opt'.
Proof.
  intros N D E. destruct (cfg_set_inv _ _ _ _ _ N E) as (v & d & -> & L & ->).
  unfold raw_get, section_dict. cbn [sections defaults]. now rewrite lookup_put_other.
Qed.

Lemma edited_empty t c : edited empty_config t <> Ok c.
Proof.
  unfold edited, and_then, cfg_set. destruct t as [v|]; [|discriminate].
  destruct (if String.eqb v "" then Ok v else before_set v); discriminate.
Qed.

(** ** Strings without the text that is looked for *)

Lemma contains_tail old c s :
  contains old (String c s) = false ->
  String.prefix old (String c s) = false /\ contains old s = false.
Proof. cbn [contains]. intros H. now apply orb_false_iff in H. Qed.

Lemma replace_from_absent old new s :
  contains old s = false -> replace_from old new s 0 = s.
Proof.
  induction s as [|c s IH]; [reflexivity|]. intros H.
  destruct (contains_tail _ _ _ H) as [P T]. cbn [replace_from].
  rewrite P. now rewrite IH.
Qed.

Lemma contains_empty s : contains "" s = true.
Proof. now destruct s. Qed.

Lemma replace_absent old new s : contains old s = false -> replace old new s = s.
Proof.
  intros H. destruct old; [now rewrite contains_empty in H|].
  now apply replace_from_absent.
Qed.

Lemma sub_from_absent pattern repl s :
  contains (lower pattern) (lower s) = false -> sub_from pattern repl s 0 = s.
Proof.
  induction s as [|c s IH]; [reflexivity|]. intros H. cbn [lower] in H.
  destruct (contains_tail _ _ _ H) as [P T]. cbn [sub_from lower].
  rewrite P. now rewrite IH.
Qed.

Lemma prefix_first a b s :
  String.prefix (String a b) s = true -> String.prefix (String a "") s = true.
Proof.
  destruct s as [|c s]; [discriminate|]. cbn [String.prefix].
  destruct (ascii_dec a c); [|discriminate]. intros _. now destruct s.
Qed.

Lemma has_char_contains a b s :
  has_char a s = false -> contains (String a b) s = false.
Proof.
  unfold has_char. induction s as [|c s IH]; intros H.
  - reflexivity.
  - destruct (contains_tail _ _ _ H) as [P T]. cbn [contains].
    rewrite (IH T), orb_false_r.
    destruct (String.prefix (String a b) (String c s)) eqn:E; [|reflexivity].
    apply prefix_first in E. congruence.
Qed.

Lemma has_char_app a s1 s2 :
  has_char a s1 = false -> has_char a s2 = false -> has_char a (s1 ++ s2) = false.
Proof.
  unfold has_char. intros H1 H2. induction s1 as [|c s IH]; [exact H2|].
  destruct (contains_tail _ _ _ H1) as [P T]. cbn [append contains].
  rewrite (IH T), orb_false_r.
  cbn [String.prefix] in *. destruct (ascii_dec a c); [|reflexivity].
  now destruct s.
Qed.

Lemma strip_keys_plain s : has_char "%" s = false -> strip_keys s 0 = s.
Proof.
  unfold has_char. induction s as [|c s IH]; [reflexivity|]. intros H.
  destruct (contains_tail _ _ _ H) as [P T]. cbn [strip_keys].
  assert (K : keycre_match (String c s) = None).
  { unfold keycre_match. cbn [String.prefix] in P.
    destruct (ascii_dec "%" c) as [<-|N]; [now destruct s|].
    destruct c as [[] [] [] [] [] [] [] []]; try reflexivity. now elim N. }
  rewrite K. now rewrite IH.
Qed.

(** a value without a percent sign passes [before_set] *)
Lemma before_set_plain v : has_char "%" v = false -> before_set v = Ok v.
Proof.
  intros H. unfold before_set.
  rewrite (replace_absent "%%" "" v) by (now apply has_char_contains).
  now rewrite strip_keys_plain, H.
Qed.

Lemma cfg_set_plain c section opt v d :
  named_section section -> has_char "%" v = false ->
  lookup section (sections c) = Some d ->
  cfg_set c section opt (Some v)
  = Ok (mkConfig (defaults c) (put section (put (lower opt) v d) (sections c))).
Proof.
  intros N H L. unfold cfg_set. rewrite (before_set_plain _ H).
  unfold named_section in N. rewrite N, L. now destruct (String.eqb v "").
Qed.

(** ** What [set] leaves alone *)

Lemma map_fst_put {V} k (v v0 : V) l :
  lookup k l = Some v0 -> map fst (put k v l) = map fst l.
Proof.
  induction l as [|[k' v'] l IH]; [discriminate|]. cbn [lookup put].
  destruct (String.eqb k k') eqn:E; [reflexivity|].
  intros L. cbn [map fst]. now rewrite IH.
Qed.

Lemma cfg_set_other_key c section opt value c' opt' :
  named_section section -> lower opt <> lower opt' ->
  cfg_set c section opt value = Ok c' ->
  raw_get c' section opt' = raw_get c section opt'.
Proof.
  intros N D E. destruct (cfg_set_inv _ _ _ _ _ N E) as (v & d & -> & L & ->).
  unfold raw_get, section_dict. cbn [sections defaults].
  now rewrite lookup_put_same, L, lookup_put_other.
Qed.

Lemma cfg_set_shape c section opt value c' :
  named_section section ->
  cfg_set c section opt value = Ok c' ->
  defaults c' = defaults c /\ map fst (sections c') = map fst (sections c).
Proof.
  intros N E. destruct (cfg_set_inv _ _ _ _ _ N E) as (v & d & -> & L & ->).
  split; [reflexivity|]. cbn [sections]. eapply map_fst_put; eauto.
Qed.

(** ** Configurations that read back as written *)








Lemma newlines_absent s : has_char "013" s = false -> newlines s = s.
Proof.
  unfold has_char. induction s as [|c s IH]; [reflexivity|]. intros H.
  destruct (contains_tail _ _ _ H) as [P T]. cbn [newlines].
  rewrite (IH T). cbn [String.prefix] in P.
  destruct (Ascii.eqb c "013") eqn:E; [|reflexivity].
  apply Ascii.eqb_eq in E. subst c. now destruct s.
Qed.

(** *** Lines *)








(** *** What [write] lays out *)







(** *** Association lists without a key twice *)












(** *** Reading the lines back *)
















(** *** [set] keeps a configuration plain *)





(** *** What the plain reader accepts is of the plain kind *)





































(** ** The steps of [alter_new] *)

Section Steps.
Variable py : pylib.
Variable env : environment.
Variable x : string.

Lemma load_cfg_state p s res s' : load_cfg py p s = (res, s') -> s' = s.
Proof.
  unfold load_cfg. destruct (get p (root s)) as [[?|?]|]; intros E; now inversion E.
Qed.

(** the steps of a call of [edit_cfg] that reaches the write *)
Lemma edit_cfg_steps s res s' :
  cwd s = [x] ->
  edit_cfg py env s = (res, s') ->
  ((forall o, res <> Ok o) /\ s' = s) \/
  (exists c0 old c1 c2 c3 c4,
      load_cfg py [x; "setup.cfg"] s = (Ok c0, s) /\
      cfg_get py c0 "metadata" "name" = Ok old /\
      cfg_set c0 "metadata" "name" (name_target (info s)) = Ok c1 /\
      cfg_set c1 "coverage:run" "source" (name_target (info s)) = Ok c2 /\
      cfg_set c2 "coverage:html" "title"
        (Some ("coverage report for " ++ fstr (name_target (info s)))) = Ok c3 /\
      cfg_set c3 "build_sphinx" "project" (name_target (info s)) = Ok c4 /\
      write_file (cfg_write_fault env) [x; "setup.cfg"] (cfg_write c4) s
      = (match res with Ok _ => Ok tt | Raise e => Raise e | Beyond => Beyond end, s') /\
      (forall o, res = Ok o -> o = old)).
Proof.
  intros C E. unfold edit_cfg, bind, config_path, lift, ret in E.
  rewrite C in E. change (joinpath [x] ["setup.cfg"]) with [x; "setup.cfg"] in E.
  destruct (load_cfg py [x; "setup.cfg"] s) as [[c0|e|] s0] eqn:L;
    pose proof (load_cfg_state _ _ _ _ L); subst s0;
    [|left; inversion E; split; [discriminate|reflexivity]..].
  destruct (cfg_get py c0 "metadata" "name") as [old|e|] eqn:G;
    [|left; inversion E; split; [discriminate|reflexivity]..].
  destruct (cfg_set c0 "metadata" "name" _) as [c1|e|] eqn:S1;
    [|left; inversion E; split; [discriminate|reflexivity]..].
  destruct (cfg_set c1 "coverage:run" "source" _) as [c2|e|] eqn:S2;
    [|left; inversion E; split; [discriminate|reflexivity]..].
  destruct (cfg_set c2 "coverage:html" "title" _) as [c3|e|] eqn:S3;
    [|left; inversion E; split; [discriminate|reflexivity]..].
  destruct (cfg_set c3 "build_sphinx" "project" _) as [c4|e|] eqn:S4;
    [|left; inversion E; split; [discriminate|reflexivity]..].
  rewrite C in E. change (joinpath [x] ["setup.cfg"]) with [x; "setup.cfg"] in E.
  right. exists c0, old, c1, c2, c3, c4. do 6 (split; [first [reflexivity|assumption]|]).
  destruct (write_file _ _ _ s) as [[[]|e|] s1]; inversion E; subst; split; auto.
  - intros o Ho. now inversion Ho.
  - intros o Ho. discriminate Ho.
  - intros o Ho. discriminate Ho.
Qed.

(** [edit_cfg] either stops before it opens the file for writing, or goes on
    to write the configuration it has read with the new name in it *)
Lemma edit_cfg_cases s r s' :
  cwd s = [x] ->
  edit_cfg py env s = (r, s') ->
  ((forall o, r <> Ok o) /\ s' = s) \/
  (exists c0 c old target,
      load_cfg py [x; "setup.cfg"] s = (Ok c0, s) /\
      lookup "coverage:run" (sections c0) <> None /\
      lookup "coverage:html" (sections c0) <> None /\
      lookup "build_sphinx" (sections c0) <> None /\
      name_target (info s) = Some target /\ renamed target c /\
      write_file (cfg_write_fault env) [x; "setup.cfg"] (cfg_write c) s
      = (match r with Ok _ => Ok tt | Raise e => Raise e | Beyond => Beyond end, s') /\
      (forall o, r = Ok o -> o = old) /\
      cfg_get py c0 "metadata" "name" = Ok old /\
      edited c0 (Some target) = Ok c).
Proof.
  intros C E.
  destruct (edit_cfg_steps _ _ _ C E)
    as [?|(c0 & old & c1 & c2 & c3 & c4 & L & G & S1 & S2 & S3 & S4 & W & Ho)];
    [now left|right].
  destruct (cfg_set_get_same _ "metadata" _ _ _ eq_refl S1) as (t & Ht & G1).
  destruct (cfg_set_get_same _ "coverage:run" _ _ _ eq_refl S2) as (t2 & Ht2 & G2).
  destruct (cfg_set_get_same _ "coverage:html" _ _ _ eq_refl S3) as (t3 & Ht3 & G3).
  destruct (cfg_set_get_same _ "build_sphinx" _ _ _ eq_refl S4) as (t4 & Ht4 & G4).
  assert (t2 = t) by congruence. assert (t4 = t) by congruence. subst t2 t4.
  rewrite Ht in Ht3. cbn [fstr] in Ht3. inversion Ht3. subst t3. clear Ht3.
  destruct (cfg_set_inv _ "metadata" _ _ _ eq_refl S1) as (? & ? & _ & _ & E1).
  destruct (cfg_set_inv _ "coverage:run" _ _ _ eq_refl S2) as (? & ? & _ & L2 & E2).
  destruct (cfg_set_inv _ "coverage:html" _ _ _ eq_refl S3) as (? & ? & _ & L3 & E3).
  destruct (cfg_set_inv _ "build_sphinx" _ _ _ eq_refl S4) as (? & ? & _ & L4 & E4).
  exists c0, c4, old, t. split; [exact L|].
  split; [|split; [|split]].
  - rewrite E1 in L2. cbn [sections] in L2.
    rewrite lookup_put_other in L2 by discriminate. congruence.
  - rewrite E2 in L3. cbn [sections] in L3.
    rewrite lookup_put_other in L3 by discriminate.
    rewrite E1 in L3. cbn [sections] in L3.
    rewrite lookup_put_other in L3 by discriminate. congruence.
  - rewrite E3 in L4. cbn [sections] in L4.
    rewrite lookup_put_other in L4 by discriminate.
    rewrite E2 in L4. cbn [sections] in L4.
    rewrite lookup_put_other in L4 by discriminate.
    rewrite E1 in L4. cbn [sections] in L4.
    rewrite lookup_put_other in L4 by discriminate. congruence.
  - split; [exact Ht|]. split; [|split; [exact W|split; [exact Ho|split; [exact G|]]]].
    + unfold renamed. repeat split.
      * rewrite (cfg_set_get_other _ "build_sphinx" _ _ _ "metadata" "name" eq_refl ltac:(discriminate) S4).
        rewrite (cfg_set_get_other _ "coverage:html" _ _ _ "metadata" "name" eq_refl ltac:(discriminate) S3).
        now rewrite (cfg_set_get_other _ "coverage:run" _ _ _ "metadata" "name" eq_refl ltac:(discriminate) S2).
      * rewrite (cfg_set_get_other _ "build_sphinx" _ _ _ "coverage:run" "source" eq_refl ltac:(discriminate) S4).
        now rewrite (cfg_set_get_other _ "coverage:html" _ _ _ "coverage:run" "source" eq_refl ltac:(discriminate) S3).
      * now rewrite (cfg_set_get_other _ "build_sphinx" _ _ _ "coverage:html" "title" eq_refl ltac:(discriminate) S4).
      * exact G4.
    + unfold edited, and_then. rewrite Ht in S1, S2, S3, S4. cbn [fstr] in S3.
      cbn [fstr]. now rewrite S1, S2, S3.
Qed.

End Steps.

Lemma get_set_file x a new r d :
  lookup x r = Some (Dir d) -> get [x; a] (set [x; a] new r) = Some new.
Proof.
  intros L. rewrite (set_below_eq _ _ _ _ _ _ L), get_two, lookup_put_same.
  cbn [set_at]. apply lookup_put_same.
Qed.

Section AlterNew.
Variable py : pylib.
Variable env : environment.
Variable x : string.

Lemma gentle_beyond {A} : gentle x (@beyond A).
Proof. intros s r s' H E. inversion E; subst. split; [now apply below_refl|now intros ? ?]. Qed.

Lemma local_edit_cfg : local x (edit_cfg py env).
Proof.
  intros s r s' H E.
  destruct (edit_cfg_cases py env x s r s' (proj1 H) E)
    as [(_ & ->)|(c0 & c & old & t & _ & _ & _ & _ & _ & _ & W & _)].
  - now apply below_refl.
  - eapply local_write_file; eauto.
Qed.

Lemma gentle_rewrite_sphinx_conf t : gentle x (rewrite_sphinx_conf env t).
Proof.
  intros s r s' H E. unfold rewrite_sphinx_conf in E.
  rewrite (proj1 H) in E. cbv zeta in E. unfold joinpath in E. cbn [app] in E.
  revert E. apply gentle_bind; auto.
  - apply gentle_read_text.
  - intros text. apply gentle_write_file.
Qed.

Lemma gentle_remove_egg_info y : gentle x (remove_egg_info env [x; y]).
Proof.
  intros s r s' H E. unfold remove_egg_info in E.
  destruct (rmtree (egg_fault env) [x; y] s) as [r1 s1] eqn:R1.
  destruct (gentle_rmtree x y _ _ _ _ H R1) as [B1 F1].
  assert (K : (r, s') = (r1, s1) -> below x s s' /\ files_kept x s s')
    by (intros K; inversion K; subst; auto).
  destruct r1 as [[]|e|]; auto.
  destruct e; auto.
  - inversion E; subst. auto.
  - assert (G : gentle x (chmod (egg_chmod_fault env) [x; y] ;;
                          rmtree (egg_retry_fault env) [x; y]))
      by (apply gentle_bind; [apply gentle_chmod|intros _; apply gentle_rmtree]).
    destruct (G _ _ _ (below_home _ _ _ B1) E) as [B2 F2].
    split; [eapply below_trans; eauto|]. intros a data Ga. auto.
Qed.

Lemma gentle_rename_one old target p s r s' d :
  at_home x s ->
  get [x; p] (root s) = Some (Dir d) ->
  rename_one py env old target p s = (r, s') ->
  below x s s' /\ files_kept x s s'.
Proof.
  intros H G E. unfold rename_one in E.
  destruct (String.eqb (lower p) "zdevelop"); [inversion E; unchanged H|].
  unfold bind, lift in E.
  destruct (new_package_name py old p target) as [n|e|]; [|inversion E; unchanged H..].
  destruct (with_name n) as [n'|e|]; [|inversion E; unchanged H..].
  rewrite (proj1 H) in E. unfold joinpath in E. cbn [app] in E.
  destruct (os_rename (rename_fault env p) [x; p] [x; n'] s) as [r1 s1] eqn:R.
  destruct (gentle_os_rename x p n' _ s r1 s1 d H G R) as [B1 F1].
  assert (K : (r1, s1) = (r, s') -> below x s s' /\ files_kept x s s')
    by (intros K; inversion K; subst; auto).
  destruct r1 as [[]|e|]; auto. destruct e; auto.
  unfold sys_stderr_write, raise in E. inversion E; subst.
  split.
  - eapply below_trans; [exact B1|]. apply below_stderr. apply B1.
  - intros a data Ga. cbn [root]. auto.
Qed.

Lemma present_marker p q r :
  present [x; p; q] r = true -> exists d, get [x; p] r = Some (Dir d).
Proof.
  unfold present, get. cbn [get_at]. destruct (lookup x r) as [[|d]|]; try discriminate.
  destruct (lookup p d) as [[|d']|]; try discriminate. eauto.
Qed.

Lemma gentle_rename_loop old target names :
  forall i, gentle x (rename_loop py env old target names i).
Proof.
  induction names as [|p rest IH]; intros i; cbn [rename_loop].
  - apply gentle_ret.
  - intros s r s' H E. rewrite (proj1 H) in E. unfold joinpath in E. cbn [app] in E.
    destruct (present [x; p; "__init__.py"] (root s)) eqn:P.
    + destruct (present_marker _ _ _ P) as [d G].
      unfold bind in E.
      destruct (rename_one py env old target p s) as [r1 s1] eqn:R.
      destruct (gentle_rename_one _ _ _ _ _ _ _ H G R) as [B1 F1].
      destruct r1 as [[]|e|].
      * destruct (IH _ _ _ _ (below_home _ _ _ B1) E) as [B2 F2].
        split; [eapply below_trans; eauto|]. intros a data Ga. auto.
      * inversion E; subst. auto.
      * inversion E; subst. auto.
    + eapply IH; eauto.
Qed.

Lemma gentle_rename_packages old target : gentle x (rename_packages py env old target).
Proof.
  intros s r s' H E. unfold rename_packages in E. cbv zeta in E.
  revert E. apply gentle_bind; auto.
  - apply gentle_rename_loop.
  - intros [n|]; [apply gentle_ret|apply gentle_raise].
Qed.

(** [alter_new] works below the working directory; when it returns, the
    configuration file there is the one that was read, with the new name *)
Lemma alter_new_spec s r s' :
  at_home x s ->
  alter_new py env s = (r, s') ->
  below x s s' /\
  (r = Ok tt ->
   exists c target,
     name_target (info s) = Some target /\ renamed target c /\
     get [x; "setup.cfg"] (root s') = Some (File (cfg_write c)) /\
     exists c0,
       load_cfg py [x; "setup.cfg"] s = (Ok c0, s) /\
       edited c0 (Some target) = Ok c).
Proof.
  intros H E. unfold alter_new, bind in E.
  destruct (edit_cfg py env s) as [[old|e|] s1] eqn:Ed.
  2,3: inversion E; subst; split; [eapply local_edit_cfg; eauto|discriminate].
  pose proof (local_edit_cfg _ _ _ H Ed) as B1.
  destruct (edit_cfg_cases py env x s _ _ (proj1 H) Ed)
    as [(N & _)|(c0 & c & old' & t & L0 & _ & _ & _ & Ht & Hc & W & _ & _ & Hed)];
    [now elim (N old)|].
  assert (G1 : get [x; "setup.cfg"] (root s1) = Some (File (cfg_write c))).
  { unfold write_file in W. destruct H as [_ [d L]].
    destruct (get (removelast _) _) as [[?|?]|]; try discriminate.
    destruct (get [x; "setup.cfg"] (root s)) as [[?|?]|];
      try discriminate; destruct (cfg_write_fault env) as [[?|? ?]|];
      inversion W; subst; cbn [root with_root]; eapply get_set_file; eauto. }
  rewrite (below_info _ _ _ B1), Ht in E.
  rewrite (proj1 (below_home _ _ _ B1)) in E. unfold joinpath in E. cbn [app] in E.
  assert (G : gentle x (rewrite_sphinx_conf env t ;;
                        (if one_step (old ++ ".egg-info")
                         then remove_egg_info env [x; old ++ ".egg-info"]
                         else beyond) ;;
                        rename_packages py env old t)).
  { apply gentle_bind; [apply gentle_rewrite_sphinx_conf|intros _].
    apply gentle_bind; [|intros _; apply gentle_rename_packages].
    destruct (one_step _); [apply gentle_remove_egg_info|apply gentle_beyond]. }
  destruct (G _ _ _ (below_home _ _ _ B1) E) as [B2 F2].
  split; [eapply below_trans; eauto|]. intros _. exists c, t.
  split; [exact Ht|]. split; [exact Hc|]. split; [auto|]. exists c0. auto.
Qed.

End AlterNew.

(** ** Standard output *)

Lemma stdout_write_cases fault text s res s' :
  stdout_error s = None ->
  sys_stdout_write fault text s = (res, s') ->
  (fault = None /\ res = Ok tt /\
   s' = mkState (info s) (root s) (cwd s) (stdout s ++ [text])%list (stderr s) None) \/
  (exists e later,
      fault = Some (e, later) /\ res = Raise e /\
      s' = mkState (info s) (root s) (cwd s) (stdout s) (stderr s) later).
Proof.
  unfold sys_stdout_write. intros -> E.
  destruct fault as [[e later]|]; inversion E; subst; eauto 10.
Qed.

(** ** The guarded part of [main] *)


Section Guarded.
Variable py : pylib.
Variable env : environment.
Variables (project : string) (r : dir).

Lemma load_target_name_initial :
  load_target_name env (initial project r) =
  match nth_error (argv env) 1 with
  | None => (Raise (ValueError "new name must be passed with name=[name] param"),
             initial project r)
  | Some a =>
      if String.eqb a ""
      then (Raise (ValueError "new name must be passed with name=[name] param"),
            named project a r)
      else (Ok tt, named project a r)
  end.
Proof. reflexivity. Qed.

Lemma make_new_directory_named target :
  make_new_directory env (named project target r) =
  match lookup (target ++ "-py") r with
  | Some _ =>
      (Raise (FileExistsError
                ("directory " ++ str_path (parent_dir env) [target ++ "-py"] ++ " exists")),
       measured project target r)
  | None =>
      if one_step (target ++ "-py")
      then
        match lookup project r with
        | None => (Raise (FileNotFoundError "copytree"), measured project target r)
        | Some (File _) => (Raise NotADirectoryError, measured project target r)
        | Some (Dir d0) =>
            match copytree_fault env with
            | Some (e, None) => (Raise e, measured project target r)
            | Some (e, Some partial) =>
                (Raise e, with_root (set [target ++ "-py"] (Dir partial) r)
                            (measured project target r))
            | None => (Ok tt, copied project target d0 r)
            end
        end
      else (Beyond, measured project target r)
  end.
Proof.
  unfold make_new_directory, copytree, present.
  cbn [named with_info info root cwd name_target fstr removelast joinpath app].
  rewrite !get_top.
  destruct (lookup (target ++ "-py") r); [reflexivity|].
  destruct (one_step (target ++ "-py")); [|reflexivity]. cbn [negb].
  destruct (lookup project r) as [[?|?]|]; try reflexivity.
  destruct (copytree_fault env) as [[? [?|]]|]; reflexivity.
Qed.

Lemma copied_home target d0 : at_home (target ++ "-py") (with_cwd [target ++ "-py"] (copied project target d0 r)).
Proof. split; [reflexivity|]. exists d0. apply lookup_set_top. Qed.

Lemma chdir_copied target d0 :
  chdir (chdir_fault env) [target ++ "-py"] (copied project target d0 r) =
  match chdir_fault env with
  | Some e => (Raise e, copied project target d0 r)
  | None => (Ok tt, with_cwd [target ++ "-py"] (copied project target d0 r))
  end.
Proof.
  unfold chdir. rewrite get_top. cbn [copied root]. now rewrite lookup_set_top.
Qed.

(** how far the guarded steps get from the initial state, in a run that
    the model follows to its end *)
Lemma guarded_cases res s1 :
  guarded py env (initial project r) = (res, s1) ->
  res <> Beyond ->
  (* the copy was not completed *)
  (new_created (info s1) = false /\ (exists e, res = Raise e) /\
   cwd s1 = [project] /\ stdout s1 = [] /\ stdout_error s1 = None /\
   (root s1 = r \/
    exists target partial e,
      nth_error (argv env) 1 = Some target /\
      lookup (target ++ "-py") r = None /\
      lookup project r <> None /\
      copytree_fault env = Some (e, Some partial) /\
      root s1 = set [target ++ "-py"] (Dir partial) r)) \/
  (* the copy was completed *)
  (exists target d0,
      nth_error (argv env) 1 = Some target /\ target <> "" /\
      lookup (target ++ "-py") r = None /\
      lookup project r = Some (Dir d0) /\
      copytree_fault env = None /\
      new_created (info s1) = true /\
      ((exists e, chdir_fault env = Some e /\ res = Raise e /\
                  s1 = copied project target d0 r) \/
       (chdir_fault env = None /\
        exists ra sa,
          alter_new py env (with_cwd [target ++ "-py"] (copied project target d0 r))
          = (ra, sa) /\
          ((exists e, ra = Raise e /\ res = Raise e /\ s1 = sa) \/
           (ra = Ok tt /\
            sys_stdout_write (stdout_fault env)
              (str_path (parent_dir env) [target ++ "-py"]) sa = (res, s1)))))).
Proof.
  intros E NB. unfold guarded in E. unfold bind at 1 in E.
  rewrite load_target_name_initial in E.
  destruct (nth_error (argv env) 1) as [target|] eqn:A.
  2:{ inversion E; subst. left. cbn. eauto 10. }
  destruct (String.eqb target "") eqn:T.
  { inversion E; subst. left. cbn. eauto 10. }
  apply String.eqb_neq in T.
  unfold bind at 1 in E. rewrite make_new_directory_named in E.
  destruct (lookup (target ++ "-py") r) eqn:Lt.
  { inversion E; subst. left. cbn. eauto 10. }
  destruct (one_step (target ++ "-py")); [|inversion E; subst; now elim NB].
  destruct (lookup project r) as [[data|d0]|] eqn:Lp;
    [inversion E; subst; left; cbn; eauto 10| |inversion E; subst; left; cbn; eauto 10].
  destruct (copytree_fault env) as [[e [partial|]]|] eqn:F;
    [|inversion E; subst; left; cbn; eauto 10|].
  { inversion E; subst. left. cbn. do 5 (split; eauto). right.
    exists target, partial, e. repeat split; auto; congruence. }
  right. exists target, d0.
  do 5 (split; [first [reflexivity|assumption]|]).
  unfold bind at 1 in E.
  change (path_of_str (copied project target d0 r)
            (path_target (info (copied project target d0 r))))
    with [target ++ "-py"] in E.
  rewrite chdir_copied in E.
  destruct (chdir_fault env) as [e|] eqn:C.
  { inversion E; subst. split; [reflexivity|]. left. eauto. }
  unfold bind in E.
  destruct (alter_new py env _) as [ra sa] eqn:Al.
  destruct (alter_new_spec py env _ _ _ _ (copied_home target d0) Al) as [B _].
  pose proof (below_info _ _ _ B) as Hi.
  destruct ra as [[]|e|].
  - rewrite Hi in E. split.
    + destruct (stdout_write_cases _ _ _ _ _ (below_stream _ _ _ B) E)
        as [(_ & _ & ->)|(e & b & _ & _ & ->)]; cbn [info]; now rewrite Hi.
    + right. split; [reflexivity|]. exists (Ok tt), sa. split; [reflexivity|].
      right. split; [reflexivity|exact E].
  - inversion E; subst. split; [now rewrite Hi|].
    right. split; [reflexivity|]. exists (Raise e), s1. split; [reflexivity|].
    left. eauto.
  - inversion E; subst. now elim NB.
Qed.

(** a copy is only made under a name of one path component *)
Lemma guarded_one_step res s1 target :
  guarded py env (initial project r) = (res, s1) ->
  res <> Beyond ->
  nth_error (argv env) 1 = Some target ->
  new_created (info s1) = true ->
  one_step (target ++ "-py") = true.
Proof.
  intros E NB A Fl.
  destruct (guarded_cases _ _ E NB)
    as [(Fl' & _)|(t & d0 & A' & _ & Lt & _)]; [congruence|].
  assert (t = target) by congruence. subst t.
  unfold guarded in E. unfold bind at 1 in E.
  rewrite load_target_name_initial, A in E.
  destruct (String.eqb target ""); [inversion E; subst; discriminate Fl|].
  unfold bind at 1 in E. rewrite make_new_directory_named, Lt in E.
  destruct (one_step (target ++ "-py")); [reflexivity|].
  inversion E; subst. now elim NB.
Qed.

End Guarded.

Section Main.
Variable py : pylib.
Variable env : environment.
Variables (project : string) (r : dir).

(** what the guarded steps leave behind once the copy was made *)
Lemma guarded_copied res s1 :
  guarded py env (initial project r) = (res, s1) ->
  res <> Beyond ->
  new_created (info s1) = true ->
  exists target d0 d1,
    nth_error (argv env) 1 = Some target /\ target <> "" /\
    lookup (target ++ "-py") r = None /\
    lookup project r = Some (Dir d0) /\
    info s1 = info (copied project target d0 r) /\
    lookup (target ++ "-py") (root s1) = Some (Dir d1) /\
    (forall y, target ++ "-py" <> y -> lookup y (root s1) = lookup y r) /\
    (stdout s1 = [] \/ stdout s1 = [str_path (parent_dir env) [target ++ "-py"]]) /\
    (res = Ok tt ->
     stdout s1 = [str_path (parent_dir env) [target ++ "-py"]] /\
     stdout_error s1 = None /\
     exists c, renamed target c /\
               lookup "setup.cfg" d1 = Some (File (cfg_write c)) /\
               exists text0 c0,
                 lookup "setup.cfg" d0 = Some (File text0) /\
                 cfg_parse py text0 = Ok c0 /\
                 edited c0 (Some target) = Ok c).
Proof.
  intros E NB Fl.
  destruct (guarded_cases py env project r res s1 E NB)
    as [(Fl' & _)|(target & d0 & A & T & Lt & Lp & _ & _ & Hcase)]; [congruence|].
  exists target, d0.
  assert (Hcopied : forall y, target ++ "-py" <> y ->
                     lookup y (root (copied project target d0 r)) = lookup y r)
    by (intros y N; cbn [copied root]; now apply lookup_set_other).
  destruct Hcase as [(e & _ & -> & ->)|(_ & ra & sa & Al & Hend)].
  { exists d0. do 4 (split; [assumption|]). split; [reflexivity|].
    split; [apply lookup_set_top|]. split; [exact Hcopied|].
    split; [now left|discriminate]. }
  destruct (alter_new_spec py env _ _ _ _ (copied_home project r target d0) Al)
    as [B Hcfg].
  destruct (below_home _ _ _ B) as [Cw [d1 L1]].
  assert (Hothers : forall y, target ++ "-py" <> y -> lookup y (root sa) = lookup y r)
    by (intros y N; rewrite (below_others _ _ _ B y N); now apply Hcopied).
  assert (Hout : stdout sa = []) by (now rewrite (below_stdout _ _ _ B)).
  exists d1. do 4 (split; [assumption|]).
  destruct Hend as [(e & -> & -> & ->)|(-> & W)].
  { split; [apply (below_info _ _ _ B)|]. do 2 (split; [assumption|]).
    split; [now left|discriminate]. }
  destruct (stdout_write_cases _ _ _ _ _ (below_stream _ _ _ B) W)
    as [(_ & -> & ->)|(e & b & _ & -> & ->)]; cbn [info root stdout stdout_error].
  2:{ split; [apply (below_info _ _ _ B)|]. do 2 (split; [assumption|]).
      split; [now left|discriminate]. }
  split; [apply (below_info _ _ _ B)|]. do 2 (split; [assumption|]).
  rewrite Hout. split; [now right|]. intros _. split; [reflexivity|].
  split; [reflexivity|].
  destruct (Hcfg eq_refl) as (c & t & Ht & Hc & G & c0 & L0 & Hed).
  cbn in Ht. inversion Ht; subst t.
  exists c. split; [exact Hc|]. rewrite get_two, L1 in G. split; [exact G|].
  unfold load_cfg in L0. cbn [with_cwd copied root] in L0.
  rewrite get_two, lookup_set_top in L0.
  destruct (lookup "setup.cfg" d0) as [[text0|?]|] eqn:L;
    [exists text0, c0; split; [reflexivity|]; split; [congruence|exact Hed]| |];
    inversion L0; subst c0; now elim (edited_empty _ _ Hed).
Qed.

(** the run stops at the existence check *)
Lemma main_destination_taken target n :
  nth_error (argv env) 1 = Some target -> target <> "" ->
  lookup (target ++ "-py") r = Some n ->
  main py env (initial project r) =
  (Raise (FileExistsError
            ("directory " ++ str_path (parent_dir env) [target ++ "-py"] ++ " exists")),
   measured project target r).
Proof.
  intros A T L. unfold main, guarded. unfold bind at 1.
  rewrite load_target_name_initial, A.
  apply String.eqb_neq in T. rewrite T.
  unfold bind at 1. rewrite make_new_directory_named, L. reflexivity.
Qed.

End Main.

(** * The claims *)

(** C1 (the code departs from the claim).  On library [widgets], package
    [widgets_cli], target [gadgets] the claim asks for [gadgets_cli].  The
    script hands the three names to [re.sub] in the order pattern
    [parent_name], replacement [old_name], subject [target_name], so it
    answers [gadgets]; with packages [widgets] and [widgets_cli] the second
    rename then collides with the first and the run is rolled back. *)
Theorem name_substitution_swaps_arguments :
  new_package_name plain_py "widgets" "widgets_cli" "gadgets" = Ok "gadgets" /\
  spec_rename "widgets" "widgets_cli" "gadgets" = "gadgets_cli" /\
  fst (main plain_py (calm sample_argv)
         (initial "widgets-py" [("widgets-py", Dir two_packages)])) = Raise OSError.
Proof. repeat split; vm_compute; reflexivity. Qed.

(** C2 fails as stated: when the deletion of the original tree fails, the
    run fails with the flag set, the destination stays and the original has
    lost a part. *)
Lemma commit_failure_is_not_rolled_back :
  (exists s',
      main plain_py stuck_file (initial "widgets-py" sample_root)
      = (Raise PermissionError, s') /\
      new_created (info s') = true /\
      path_target (info s') = Some ["gadgets-py"] /\
      lookup "gadgets-py" (root s') <> None /\
      lookup "widgets-py" (root s') <> lookup "widgets-py" sample_root) /\
  ~ spec_failure_rolls_back.
Proof.
  assert (H : exists s',
             main plain_py stuck_file (initial "widgets-py" sample_root)
             = (Raise PermissionError, s') /\
             new_created (info s') = true /\
             path_target (info s') = Some ["gadgets-py"] /\
             lookup "gadgets-py" (root s') <> None /\
             lookup "widgets-py" (root s') <> lookup "widgets-py" sample_root).
  { eexists. split; [vm_compute; reflexivity|].
    repeat split; vm_compute; discriminate. }
  split; [exact H|]. intros claim.
  destruct H as (s' & Hm & Hf & Hp & Hd & _).
  destruct (claim _ _ _ _ _ _ _ Hm Hf Hp) as [Hnone _]. contradiction.
Qed.

(** C2 (amended).  In a run that stays with names of one path component
    (the target name and the old library name hold no separator), an error
    raised inside the [try] with the flag set is re-raised after the
    destination was deleted: provided that deletion itself succeeds, the
    directory holding the project is entry for entry as it was before the
    run.  An error raised with the flag still unset is re-raised with no
    cleanup, the original tree as it was. *)
Theorem guarded_failure_rolls_back :
  forall py env project r e s1,
    guarded py env (initial project r) = (Raise e, s1) ->
    (new_created (info s1) = true -> rollback_fault env = None ->
     exists target s2,
       nth_error (argv env) 1 = Some target /\
       one_step (target ++ "-py") = true /\
       path_target (info s1) = Some [target ++ "-py"] /\
       main py env (initial project r) = (Raise e, s2) /\
       lookup (target ++ "-py") (root s2) = None /\
       forall y, lookup y (root s2) = lookup y r) /\
    (new_created (info s1) = false ->
     main py env (initial project r) = (Raise e, s1) /\
     lookup project (root s1) = lookup project r).
Proof.
  intros py env project r e s1 G. split.
  - intros Fl Rb.
    destruct (guarded_copied py env project r _ _ G ltac:(discriminate) Fl)
      as (target & d0 & d1 & A & _ & Lt & _ & Hi & Ld & Ho & _).
    exists target, (with_root (del [target ++ "-py"] (root s1)) s1).
    assert (Hp : path_target (info s1) = Some [target ++ "-py"]) by now rewrite Hi.
    split; [exact A|].
    split; [exact (guarded_one_step py env project r _ _ _ G ltac:(discriminate) A Fl)|].
    split; [exact Hp|]. split.
    + unfold main. rewrite G, Fl, Hp. unfold rmtree_opt, bind, rmtree, path_of_str.
      now rewrite get_top, Ld, Rb.
    + cbn [root with_root]. split; [apply lookup_del_top|].
      intros y. destruct (string_dec (target ++ "-py") y) as [<-|N].
      * now rewrite lookup_del_top.
      * rewrite lookup_del_other by exact N. now apply Ho.
  - intros Fl. split; [unfold main; now rewrite G, Fl|].
    destruct (guarded_cases py env project r _ _ G ltac:(discriminate))
      as [(_ & _ & _ & _ & _ & [->|(t & p & e' & _ & Lt & Lp & _ & ->)])
         |(t & d0 & _ & _ & _ & _ & _ & Fl' & _)]; [reflexivity| |congruence].
    apply lookup_set_other. congruence.
Qed.

Lemma guarded_failure_rolls_back_witness :
  exists s2,
    main plain_py (calm sample_argv) (initial "widgets-py" [("widgets-py", Dir no_packages)])
    = (Raise (FileNotFoundError "no packages found in library"), s2) /\
    lookup "gadgets-py" (root s2) = None /\
    forall y, lookup y (root s2) = lookup y [("widgets-py", Dir no_packages)].
Proof.
  destruct (guarded_failure_rolls_back plain_py (calm sample_argv) "widgets-py"
              [("widgets-py", Dir no_packages)]
              (FileNotFoundError "no packages found in library") no_packages_stop)
    as [H _]; [vm_compute; reflexivity|].
  destruct (H eq_refl eq_refl) as (target & s2 & A & _ & Hp & Hm & Hn & Ho).
  exists s2. split; [exact Hm|]. split; [|exact Ho].
  vm_compute in A. inversion A; subst target. exact Hn.
Defined.




(** C4 (the code departs from the claim).  In a project whose only
    directory with a marker is [zdevelop], [rename_packages] counts the
    directory before it skips it, so [i] is set and no error is raised:
    nothing is renamed, the run returns normally and the original is
    deleted.  A project with no marker at all does fail as claimed. *)
Theorem tooling_only_project_is_accepted :
  rename_packages plain_py (calm sample_argv) "widgets" "gadgets" (in_copy tooling_only)
  = (Ok tt, in_copy tooling_only) /\
  (exists s',
      main plain_py (calm sample_argv) (initial "widgets-py" [("widgets-py", Dir tooling_only)])
      = (Ok tt, s') /\
      lookup "widgets-py" (root s') = None /\
      get ["gadgets-py"; "zdevelop"] (root s') = Some package) /\
  fst (rename_packages plain_py (calm sample_argv) "widgets" "gadgets" (in_copy no_packages))
  = Raise (FileNotFoundError "no packages found in library").
Proof.
  split; [vm_compute; reflexivity|]. split; [|vm_compute; reflexivity].
  eexists. split; [vm_compute; reflexivity|]. split; vm_compute; reflexivity.
Qed.

(** C5 fails as stated: [set] on a section that is not there raises
    [NoSectionError], and so does the script on such a file. *)
Lemma set_does_not_create_sections :
  cfg_set bare_config "coverage:run" "source" (Some "gadgets")
  = Raise (NoSectionError "coverage:run") /\
  fst (edit_cfg plain_py (calm sample_argv) (in_copy bare_project))
  = Raise (NoSectionError "coverage:run") /\
  ~ spec_set_creates_section.
Proof.
  split; [reflexivity|]. split; [vm_compute; reflexivity|].
  intros claim.
  destruct (claim bare_config "coverage:run" "source" "gadgets") as (c' & E & _).
  discriminate E.
Qed.

(** C5 (amended).  For a section other than DEFAULT: a value that
    interpolation accepts (the empty one, or one with no [%] left once
    [%%] and [%(name)s] are taken out) is stored under the key when the
    section is there, whether or not the key was, and every other section,
    every other key (keys in ASCII) and the list of sections are as before;
    when the section is not there [set] raises [NoSectionError] for it and
    creates nothing.
    A value that interpolation does not accept raises [ValueError], section
    or no section.  [edit_cfg] therefore raises [NoSectionError], before it
    writes anything, for the first of [coverage:run], [coverage:html] and
    [build_sphinx] that the file lacks. *)
Theorem set_needs_the_section :
  forall c section opt v,
    named_section section ->
    (accepted v = true ->
     (forall d, lookup section (sections c) = Some d ->
                exists c',
                  cfg_set c section opt (Some v) = Ok c' /\
                  raw_get c' section opt = Ok v /\
                  map fst (sections c') = map fst (sections c) /\
                  (forall section' opt', section <> section' ->
                                         raw_get c' section' opt' = raw_get c section' opt') /\
                  (forall opt', is_ascii opt = true -> is_ascii opt' = true ->
                                lower opt <> lower opt' ->
                                raw_get c' section opt' = raw_get c section opt')) /\
     (lookup section (sections c) = None ->
      cfg_set c section opt (Some v) = Raise (NoSectionError section))) /\
    (accepted v = false ->
     exists msg, cfg_set c section opt (Some v) = Raise (ValueError msg)) /\
    (forall py env x s old target missing,
       cwd s = [x] ->
       load_cfg py [x; "setup.cfg"] s = (Ok c, s) ->
       cfg_get py c "metadata" "name" = Ok old ->
       name_target (info s) = Some target ->
       has_char "%" target = false ->
       first_missing c = Some missing ->
       edit_cfg py env s = (Raise (NoSectionError missing), s)).
Proof.
  intros c section opt v N.
  assert (A : accepted v = true ->
              (if String.eqb v "" then Ok v else before_set v) = Ok v).
  { unfold accepted, before_set. destruct (String.eqb v ""); [reflexivity|].
    cbn [orb]. intros H. apply negb_true_iff in H. now rewrite H. }
  split; [intros Hv; split|split].
  - intros d L.
    assert (E : cfg_set c section opt (Some v)
                = Ok (mkConfig (defaults c)
                        (put section (put (lower opt) v d) (sections c)))).
    { unfold cfg_set. rewrite (A Hv). unfold named_section in N. now rewrite N, L. }
    eexists. split; [exact E|]. split; [|split; [|split]].
    + destruct (cfg_set_get_same _ _ _ _ _ N E) as (v' & Hv' & G). congruence.
    + eapply cfg_set_shape; eauto.
    + intros section' opt' D. eapply cfg_set_get_other; eauto.
    + intros opt' _ _ D. eapply cfg_set_other_key; eauto.
  - intros L. unfold cfg_set. rewrite (A Hv). unfold named_section in N.
    now rewrite N, L.
  - intros Hv. unfold cfg_set, accepted, before_set in *.
    destruct (String.eqb v ""); [discriminate|]. cbn [orb] in Hv.
    apply negb_false_iff in Hv. rewrite Hv. eauto.
  - intros py env x s old target missing C Hl G Ht Hp Hmiss.
    assert (Lm : exists dm, lookup "metadata" (sections c) = Some dm).
    { unfold cfg_get, raw_get, section_dict in G.
      destruct (lookup "metadata" (sections c)); [eauto|discriminate]. }
    destruct Lm as [dm Lm].
    assert (Hp' : has_char "%" ("coverage report for " ++ target) = false)
      by (apply has_char_app; [reflexivity|exact Hp]).
    unfold edit_cfg, bind, config_path, lift. rewrite C.
    change (joinpath [x] ["setup.cfg"]) with [x; "setup.cfg"].
    rewrite Hl, G, Ht. cbn [fstr].
    rewrite (cfg_set_plain c "metadata" "name" target dm eq_refl Hp Lm).
    unfold first_missing in Hmiss. cbn [find] in Hmiss.
    set (c1 := mkConfig (defaults c) (put "metadata" (put (lower "name") target dm)
                                        (sections c))).
    assert (K1 : forall sec, sec <> "metadata" ->
                             lookup sec (sections c1) = lookup sec (sections c))
      by (intros sec D; cbn [c1 sections]; apply lookup_put_other; congruence).
    destruct (lookup "coverage:run" (sections c)) as [dr|] eqn:Lr.
    2:{ inversion Hmiss; subst missing.
        unfold cfg_set. rewrite (before_set_plain _ Hp).
        destruct (String.eqb target ""); cbn [String.eqb orb Ascii.eqb Bool.eqb];
          now rewrite (K1 "coverage:run" ltac:(discriminate)), Lr. }
    rewrite (cfg_set_plain c1 "coverage:run" "source" target dr eq_refl Hp)
      by (now rewrite K1 by discriminate).
    set (c2 := mkConfig (defaults c1) (put "coverage:run" (put (lower "source") target dr)
                                         (sections c1))).
    assert (K2 : forall sec, sec <> "metadata" -> sec <> "coverage:run" ->
                             lookup sec (sections c2) = lookup sec (sections c)).
    { intros sec D1 D2. cbn [c2 sections].
      rewrite lookup_put_other by congruence. now apply K1. }
    destruct (lookup "coverage:html" (sections c)) as [dh|] eqn:Lh.
    2:{ inversion Hmiss; subst missing.
        unfold cfg_set. rewrite (before_set_plain _ Hp').
        cbn [String.eqb orb Ascii.eqb Bool.eqb append].
        now rewrite (K2 "coverage:html" ltac:(discriminate) ltac:(discriminate)), Lh. }
    rewrite (cfg_set_plain c2 "coverage:html" "title" _ dh eq_refl Hp')
      by (now rewrite K2 by discriminate).
    set (c3 := mkConfig (defaults c2)
                 (put "coverage:html"
                    (put (lower "title") ("coverage report for " ++ target) dh)
                    (sections c2))).
    assert (K3 : lookup "build_sphinx" (sections c3) = lookup "build_sphinx" (sections c)).
    { cbn [c3 sections]. rewrite lookup_put_other by discriminate.
      now apply K2. }
    destruct (lookup "build_sphinx" (sections c)) as [db|] eqn:Lb; [discriminate|].
    inversion Hmiss; subst missing.
    unfold cfg_set. rewrite (before_set_plain _ Hp).
    destruct (String.eqb target ""); cbn [String.eqb orb Ascii.eqb Bool.eqb];
      now rewrite K3.
Qed.

Lemma set_needs_the_section_witness :
  cfg_set bare_config "coverage:run" "source" (Some "gadgets")
  = Raise (NoSectionError "coverage:run") /\
  (exists c', cfg_set bare_config "metadata" "name" (Some "gadgets") = Ok c' /\
              raw_get c' "metadata" "name" = Ok "gadgets") /\
  (exists msg, cfg_set bare_config "metadata" "name" (Some "50%") = Raise (ValueError msg)) /\
  edit_cfg plain_py (calm sample_argv) (in_copy bare_project)
  = (Raise (NoSectionError "coverage:run"), in_copy bare_project).
Proof.
  split; [|split; [|split]].
  - apply (set_needs_the_section bare_config "coverage:run" "source" "gadgets" eq_refl);
      reflexivity.
  - destruct (proj1 (proj1 (set_needs_the_section bare_config "metadata" "name" "gadgets"
                               eq_refl) eq_refl)
                [("name", "widgets")] eq_refl) as (c' & E & G & _).
    exists c'. auto.
  - apply (set_needs_the_section bare_config "metadata" "name" "50%" eq_refl).
    reflexivity.
  - apply (proj2 (proj2 (set_needs_the_section bare_config "metadata" "name" "gadgets"
                           eq_refl))
             plain_py (calm sample_argv) "gadgets-py" (in_copy bare_project)
             "widgets" "gadgets" "coverage:run"); reflexivity.
Defined.

(** C6 (the code departs from the claim).  When [copytree] raises after it
    has created part of the destination, [new_created] is still false: the
    handler deletes nothing and the partial tree stays on disk. *)
Theorem partial_copy_is_left_behind :
  exists s',
    main plain_py copy_stops (initial "widgets-py" sample_root) = (Raise ShutilError, s') /\
    new_created (info s') = false /\
    lookup "gadgets-py" (root s') = Some (Dir [("setup.cfg", File widgets_cfg)]).
Proof.
  eexists. split; [vm_compute; reflexivity|]. split; reflexivity.
Qed.

(** C7 fails as stated: the disk fills up after eleven bytes, and
    [setup.cfg] is left holding those eleven bytes. *)
Lemma save_is_not_atomic :
  (exists s',
      edit_cfg plain_py disk_full (in_copy widgets_project) = (Raise OSError, s') /\
      get ["gadgets-py"; "setup.cfg"] (root (in_copy widgets_project))
      = Some (File widgets_cfg) /\
      get ["gadgets-py"; "setup.cfg"] (root s') = Some (File ("[metadata]" ++ nl))) /\
  ~ spec_save_atomic.
Proof.
  assert (H : exists s',
             edit_cfg plain_py disk_full (in_copy widgets_project) = (Raise OSError, s') /\
             get ["gadgets-py"; "setup.cfg"] (root (in_copy widgets_project))
             = Some (File widgets_cfg) /\
             get ["gadgets-py"; "setup.cfg"] (root s') = Some (File ("[metadata]" ++ nl))).
  { eexists. split; [vm_compute; reflexivity|]. split; vm_compute; reflexivity. }
  split; [exact H|]. intros claim. destruct H as (s' & E & G & G').
  specialize (claim plain_py disk_full "gadgets-py" (in_copy widgets_project)
                _ _ eq_refl E).
  rewrite G, G' in claim. discriminate claim.
Qed.

(** C7 (amended).  When [edit_cfg] raises, either nothing was written (the
    error came from reading, from [get] or [set], or from opening the file)
    or the write stopped part-way: [setup.cfg] then holds, in place of its
    old contents, the first bytes of the text that [ConfigParser.write]
    makes of the configuration that was read, with the four assignments
    made. *)
Theorem failed_save_leaves_a_prefix :
  forall py env x s e s',
    cwd s = [x] ->
    edit_cfg py env s = (Raise e, s') ->
    s' = s \/
    exists c0 c n,
      load_cfg py [x; "setup.cfg"] s = (Ok c0, s) /\
      edited c0 (name_target (info s)) = Ok c /\
      cfg_write_fault env = Some (WriteFails e n) /\
      s' = with_root (set [x; "setup.cfg"] (File (take n (cfg_write c))) (root s)) s /\
      get [x; "setup.cfg"] (root s') = Some (File (take n (cfg_write c))).
Proof.
  intros py env x s e s' C E.
  destruct (edit_cfg_cases py env x s _ _ C E)
    as [(_ & ->)|(c0 & c & old & t & L & _ & _ & _ & Ht & _ & W & _ & _ & Hed)];
    [now left|].
  unfold write_file in W. cbn [removelast] in W. rewrite get_top in W.
  destruct (lookup x (root s)) as [[?|d]|] eqn:Lx; try (inversion W; now left).
  destruct (get [x; "setup.cfg"] (root s)) as [[?|?]|];
    try (inversion W; now left);
    (destruct (cfg_write_fault env) as [[e1|e1 n]|]; inversion W; subst;
     [now left|right; exists c0, c, n; rewrite Ht;
               repeat split; auto; cbn [root with_root]; eapply get_set_file; eauto]).
Qed.

Lemma failed_save_witness :
  torn_copy = in_copy widgets_project \/
  exists c0 c n,
    load_cfg plain_py ["gadgets-py"; "setup.cfg"] (in_copy widgets_project)
    = (Ok c0, in_copy widgets_project) /\
    edited c0 (Some "gadgets") = Ok c /\
    cfg_write_fault disk_full = Some (WriteFails OSError n) /\
    torn_copy = with_root (set ["gadgets-py"; "setup.cfg"] (File (take n (cfg_write c)))
                             (root (in_copy widgets_project)))
                  (in_copy widgets_project) /\
    get ["gadgets-py"; "setup.cfg"] (root torn_copy) = Some (File (take n (cfg_write c))).
Proof.
  apply (failed_save_leaves_a_prefix plain_py disk_full "gadgets-py"
           (in_copy widgets_project) OSError torn_copy);
    [reflexivity|vm_compute; reflexivity].
Defined.

(** C8.  When the entry [<target>-py] is already there, the run raises
    [FileExistsError] at the check: the directory holding the project is
    unchanged, the flag is unset (so the handler deletes nothing), nothing
    was written to standard output. *)
Theorem existing_destination_stops_the_run :
  forall py env project r target n,
    nth_error (argv env) 1 = Some target -> target <> "" ->
    lookup (target ++ "-py") r = Some n ->
    exists s',
      main py env (initial project r)
      = (Raise (FileExistsError
                  ("directory " ++ str_path (parent_dir env) [target ++ "-py"] ++ " exists")),
         s') /\
      root s' = r /\ new_created (info s') = false /\
      cwd s' = [project] /\ stdout s' = [].
Proof.
  intros py env project r target n A T L. exists (measured project target r).
  split; [eapply main_destination_taken; eauto|]. repeat split.
Qed.

Lemma existing_destination_witness :
  exists s',
    main plain_py (calm sample_argv)
      (initial "widgets-py" (("gadgets-py", Dir []) :: sample_root))
    = (Raise (FileExistsError "directory /home/dev/gadgets-py exists"), s') /\
    root s' = ("gadgets-py", Dir []) :: sample_root /\ new_created (info s') = false /\
    cwd s' = ["widgets-py"] /\ stdout s' = [].
Proof.
  apply (existing_destination_stops_the_run plain_py (calm sample_argv) "widgets-py"
           (("gadgets-py", Dir []) :: sample_root) "gadgets" (Dir []));
    [reflexivity|discriminate|reflexivity].
Defined.



(** C10.  When the project directory is itself named [<target>-py], the
    target path is the original path, the check finds it, and the run
    raises [FileExistsError] with nothing copied or deleted. *)
Theorem same_name_stops_the_run :
  forall py env r target n,
    nth_error (argv env) 1 = Some target -> target <> "" ->
    lookup (target ++ "-py") r = Some n ->
    exists s',
      main py env (initial (target ++ "-py") r)
      = (Raise (FileExistsError
                  ("directory " ++ str_path (parent_dir env) [target ++ "-py"] ++ " exists")),
         s') /\
      path_target (info s') = path_original (info s') /\
      root s' = r /\ new_created (info s') = false.
Proof.
  intros py env r target n A T L. exists (measured (target ++ "-py") target r).
  split; [eapply main_destination_taken; eauto|]. repeat split.
Qed.

Lemma same_name_witness :
  exists s',
    main plain_py (calm ["py_make_name.py"; "widgets"]) (initial "widgets-py" sample_root)
    = (Raise (FileExistsError "directory /home/dev/widgets-py exists"), s') /\
    path_target (info s') = path_original (info s') /\
    root s' = sample_root /\ new_created (info s') = false.
Proof.
  apply (same_name_stops_the_run plain_py (calm ["py_make_name.py"; "widgets"])
           sample_root "widgets" (Dir widgets_project));
    [reflexivity|discriminate|reflexivity].
Defined.

(** * Further properties of the script *)

(** ** [main] and the [__main__] block *)

Section Outcome.
Variable py : pylib.
Variable env : environment.
Variables (project : string) (r : dir).

(** nothing is on standard output when a guarded step raises, and the
    stream is broken only if the write of the path has broken it *)
Lemma guarded_failure_silent e s1 :
  guarded py env (initial project r) = (Raise e, s1) ->
  stdout s1 = [] /\
  (stdout_error s1 = None \/
   exists later, stdout_error s1 = Some later /\ stdout_fault env = Some (e, Some later)).
Proof.
  intros G.
  destruct (guarded_cases py env project r _ _ G ltac:(discriminate))
    as [(_ & _ & _ & Hout & Herr & _)|(target & d0 & _ & _ & _ & _ & _ & _ & Hcase)];
    [auto|].
  destruct Hcase as [(e' & _ & _ & ->)|(_ & ra & sa & Al & Hend)]; [auto|].
  destruct (alter_new_spec py env _ _ _ _ (copied_home project r target d0) Al) as [B _].
  pose proof (below_stdout _ _ _ B) as Hout. cbn in Hout.
  pose proof (below_stream _ _ _ B) as Herr. cbn in Herr.
  destruct Hend as [(e' & _ & _ & ->)|(_ & W)]; [auto|].
  destruct (stdout_write_cases _ _ _ _ _ Herr W)
    as [(_ & ? & _)|(e' & later & F & He & ->)]; [discriminate|].
  inversion He; subst e'. cbn [stdout stdout_error]. split; [exact Hout|].
  destruct later as [e2|]; [right; exists e2|left]; auto.
Qed.

(** what [main] does once the guarded steps have raised *)
Lemma main_after_failure e s1 :
  guarded py env (initial project r) = (Raise e, s1) ->
  exists res s2,
    main py env (initial project r) = (Raise res, s2) /\
    stdout s2 = [] /\ info s2 = info s1 /\
    (root s2 = root s1 \/
     new_created (info s1) = true /\
     exists target,
       nth_error (argv env) 1 = Some target /\
       lookup (target ++ "-py") r = None /\
       lookup project r <> None /\
       forall y, target ++ "-py" <> y -> lookup y (root s2) = lookup y (root s1)) /\
    stdout_error s2 = stdout_error s1.
Proof.
  intros G. destruct (guarded_failure_silent _ _ G) as [Hout _].
  unfold main. rewrite G. destruct (new_created (info s1)) eqn:Fl.
  2:{ exists e, s1. auto 6. }
  destruct (guarded_copied py env project r _ _ G ltac:(discriminate) Fl)
    as (target & d0 & d1 & A & _ & Lt & Lp & Hi & Ld & _).
  assert (Hp : path_target (info s1) = Some [target ++ "-py"]) by now rewrite Hi.
  rewrite Hp. unfold rmtree_opt, bind, rmtree, path_of_str, raise.
  rewrite get_top, Ld.
  destruct (rollback_fault env) as [[e' rest]|].
  - exists e', (with_root (set [target ++ "-py"] (Dir rest) (root s1)) s1).
    repeat split; auto. right. split; [reflexivity|]. exists target.
    repeat split; auto; [congruence|].
    intros y N. cbn [root with_root]. now apply lookup_set_other.
  - exists e, (with_root (del [target ++ "-py"] (root s1)) s1).
    repeat split; auto. right. split; [reflexivity|]. exists target.
    repeat split; auto; [congruence|].
    intros y N. cbn [root with_root]. now apply lookup_del_other.
Qed.

(** what [main] does once the guarded steps have returned *)
Lemma main_after_success s1 :
  guarded py env (initial project r) = (Ok tt, s1) ->
  exists target d0,
    nth_error (argv env) 1 = Some target /\
    lookup project (root s1) = Some (Dir d0) /\
    stdout s1 = [str_path (parent_dir env) [target ++ "-py"]] /\
    main py env (initial project r) =
    match commit_fault env with
    | Some (e, rest) => (Raise e, with_root (set [project] (Dir rest) (root s1)) s1)
    | None => (Ok tt, with_root (del [project] (root s1)) s1)
    end /\
    stdout_error s1 = None.
Proof.
  intros G.
  destruct (guarded_cases py env project r _ _ G ltac:(discriminate))
    as [(_ & [e He] & _)|(_ & _ & _ & _ & _ & _ & _ & Fl & _)]; [discriminate|].
  destruct (guarded_copied py env project r _ _ G ltac:(discriminate) Fl)
    as (target & d0 & d1 & A & T & Lt & Lp & Hi & Ld & Ho & _ & Hok).
  destruct (Hok eq_refl) as (Hout & Herr & _).
  assert (D : target ++ "-py" <> project) by congruence.
  exists target, d0. split; [exact A|]. rewrite (Ho _ D). split; [exact Lp|].
  split; [exact Hout|]. split; [|exact Herr].
  unfold main. rewrite G, Hi. cbn [copied info path_original].
  unfold rmtree_opt, rmtree, path_of_str. rewrite get_top, (Ho _ D), Lp.
  destruct (commit_fault env) as [[? ?]|]; reflexivity.
Qed.

End Outcome.

(** X1.  Without a target name on the command line, or with an empty one,
    the script raises [ValueError] before it has touched anything: the
    directory holding the project is as it was, the flag is unset, and the
    caller reads the sentinel [0]. *)
Theorem missing_name_changes_nothing :
  forall py env project r,
    nth_error (argv env) 1 = None \/ nth_error (argv env) 1 = Some "" ->
    exists s',
      script py env (initial project r)
      = (Raise (ValueError "new name must be passed with name=[name] param"), s') /\
      root s' = r /\ cwd s' = [project] /\
      new_created (info s') = false /\ stdout s' = ["0"].
Proof.
  intros py env project r H.
  assert (G : exists s1,
             guarded py env (initial project r)
             = (Raise (ValueError "new name must be passed with name=[name] param"), s1) /\
             root s1 = r /\ cwd s1 = [project] /\ new_created (info s1) = false /\
             stdout s1 = [] /\ stdout_error s1 = None).
  { unfold guarded. unfold bind at 1. rewrite load_target_name_initial.
    destruct H as [-> | ->]; eexists; split; try reflexivity; repeat split. }
  destruct G as (s1 & G & Hr & Hc & Hf & Ho & He).
  unfold script, main. rewrite G, Hf. unfold bind, sys_stdout_write, raise. rewrite He.
  eexists. split; [reflexivity|]. cbn. rewrite Ho. auto.
Qed.

Lemma missing_name_witness :
  exists s',
    script plain_py (calm ["py_make_name.py"]) (initial "widgets-py" sample_root)
    = (Raise (ValueError "new name must be passed with name=[name] param"), s') /\
    root s' = sample_root /\ cwd s' = ["widgets-py"] /\
    new_created (info s') = false /\ stdout s' = ["0"].
Proof.
  apply (missing_name_changes_nothing plain_py (calm ["py_make_name.py"])
           "widgets-py" sample_root).
  left. reflexivity.
Defined.

(** X2.  When a guarded step raises, whatever the handler then manages to
    do, the script ends with an error.  The sentinel [0] is then all the
    caller reads on standard output, unless the step that raised was the
    write of the path and it left standard output broken: the write of the
    sentinel then raises the error of a broken stream and nothing at all is
    on standard output.  With standard output intact, and the flag unset or
    the deletion of the destination successful, the error of the script is
    the one that the guarded step raised. *)
Theorem guarded_failure_prints_the_sentinel :
  forall py env project r e s1,
    guarded py env (initial project r) = (Raise e, s1) ->
    exists e' s',
      script py env (initial project r) = (Raise e', s') /\
      (stdout s' = ["0"] /\ stdout_error s1 = None \/
       stdout s' = [] /\ stdout_error s1 = Some e' /\
       stdout_fault env = Some (e, Some e')) /\
      ((forall e0 later, stdout_fault env <> Some (e0, Some later)) ->
       stdout s' = ["0"]) /\
      (stdout_error s1 = None ->
       new_created (info s1) = false \/ rollback_fault env = None -> e' = e).
Proof.
  intros py env project r e s1 G.
  destruct (main_after_failure py env project r e s1 G)
    as (em & s2 & Hm & Hout & _ & _ & Herr).
  destruct (guarded_failure_silent py env project r e s1 G) as [_ Hs].
  assert (Hem : new_created (info s1) = false \/ rollback_fault env = None -> em = e).
  { intros Hc. unfold main in Hm. rewrite G in Hm.
    destruct (new_created (info s1)) eqn:Fl; [|congruence].
    destruct Hc as [Hc|Hc]; [discriminate|].
    unfold bind, raise, rmtree_opt, rmtree in Hm. rewrite Hc in Hm.
    destruct (guarded_copied py env project r _ _ G ltac:(discriminate) Fl)
      as (target & d0 & d1 & _ & _ & _ & _ & Hi & Ld & _).
    rewrite Hi in Hm. cbn [copied info path_target path_of_str] in Hm.
    rewrite get_top, Ld in Hm. congruence. }
  unfold script. rewrite Hm. unfold bind, sys_stdout_write, raise. rewrite Herr.
  destruct Hs as [Hs|(later & Hs & F)]; rewrite Hs.
  - exists em. eexists. split; [reflexivity|]. cbn [stdout]. rewrite Hout.
    split; [left; auto|]. split; [reflexivity|]. intros _. exact Hem.
  - exists later, s2. split; [reflexivity|]. rewrite Hout.
    split; [right; auto|]. split; [|discriminate].
    intros N. now elim (N e later).
Qed.

Lemma guarded_failure_sentinel_witness :
  (exists e' s',
      script plain_py (calm sample_argv)
        (initial "widgets-py" [("widgets-py", Dir no_packages)])
      = (Raise e', s') /\
      stdout s' = ["0"] /\
      e' = FileNotFoundError "no packages found in library") /\
  (exists s',
      script plain_py closed_pipe (initial "widgets-py" sample_root)
      = (Raise OSError, s') /\
      stdout s' = [] /\ lookup "gadgets-py" (root s') = None).
Proof.
  split.
  - destruct (guarded_failure_prints_the_sentinel plain_py (calm sample_argv) "widgets-py"
                [("widgets-py", Dir no_packages)]
                (FileNotFoundError "no packages found in library") no_packages_stop)
      as (e' & s' & Hs & _ & Hout & He); [vm_compute; reflexivity|].
    exists e', s'. split; [exact Hs|]. split.
    + apply Hout. intros e0 later. discriminate.
    + apply He; [reflexivity|]. right. reflexivity.
  - destruct (guarded_failure_prints_the_sentinel plain_py closed_pipe "widgets-py"
                sample_root OSError closed_pipe_stop)
      as (e' & s' & Hs & [[_ N]|(Hout & _ & F)] & _); [vm_compute; reflexivity| |].
    + vm_compute in N. discriminate N.
    + vm_compute in F. inversion F; subst e'. exists s'.
      split; [exact Hs|]. split; [exact Hout|].
      vm_compute in Hs. inversion Hs. reflexivity.
Defined.

(** X3.  When the guarded steps have returned and the deletion of the
    original raises, the caller reads the destination path followed by the
    sentinel [0], and the error of the deletion is what the script raises. *)
Theorem commit_failure_prints_path_then_sentinel :
  forall py env project r s1 e rest,
    guarded py env (initial project r) = (Ok tt, s1) ->
    commit_fault env = Some (e, rest) ->
    exists target s',
      nth_error (argv env) 1 = Some target /\
      script py env (initial project r) = (Raise e, s') /\
      stdout s' = [str_path (parent_dir env) [target ++ "-py"]; "0"] /\
      lookup project (root s') = Some (Dir rest).
Proof.
  intros py env project r s1 e rest G F.
  destruct (main_after_success py env project r s1 G)
    as (target & d0 & A & Lp & Hout & Hm & Herr).
  rewrite F in Hm. exists target. unfold script. rewrite Hm.
  unfold bind, sys_stdout_write, raise. cbn [stdout_error with_root]. rewrite Herr.
  eexists. split; [exact A|]. split; [reflexivity|].
  cbn. rewrite Hout. split; [reflexivity|]. apply lookup_set_top.
Qed.

Lemma commit_failure_sentinel_witness :
  exists s',
    script plain_py stuck_file (initial "widgets-py" sample_root)
    = (Raise PermissionError, s') /\
    stdout s' = ["/home/dev/gadgets-py"; "0"] /\
    lookup "widgets-py" (root s') = Some (Dir [("widgets", package)]).
Proof.
  destruct (commit_failure_prints_path_then_sentinel plain_py stuck_file "widgets-py"
              sample_root sample_renamed PermissionError [("widgets", package)])
    as (target & s' & A & Hs & Hout & Hl);
    [vm_compute; reflexivity|reflexivity|].
  vm_compute in A. inversion A; subst target. exists s'. auto.
Defined.

(** X4.  When the script returns normally, the path of the new project
    root is all it has written to standard output, and the directory that
    held the project has lost the entry of the original and no other. *)
Theorem success_prints_the_path_only :
  forall py env project r s',
    script py env (initial project r) = (Ok tt, s') ->
    exists target s1,
      nth_error (argv env) 1 = Some target /\
      guarded py env (initial project r) = (Ok tt, s1) /\
      stdout s' = [str_path (parent_dir env) [target ++ "-py"]] /\
      lookup project (root s') = None /\
      forall y, project <> y -> lookup y (root s') = lookup y (root s1).
Proof.
  intros py env project r s' Hs. unfold script in Hs.
  destruct (main py env (initial project r)) as [[[]|e|] s2] eqn:Hm.
  2:{ unfold bind, sys_stdout_write, raise in Hs.
      destruct (stdout_error s2); discriminate. }
  2:{ discriminate. }
  inversion Hs; subst s2.
  destruct (guarded py env (initial project r)) as [[[]|e|] s1] eqn:G.
  2:{ destruct (main_after_failure py env project r e s1 G) as (e' & s2 & Hm' & _).
      congruence. }
  2:{ unfold main in Hm. rewrite G in Hm. discriminate. }
  destruct (main_after_success py env project r s1 G)
    as (target & d0 & A & Lp & Hout & Hm' & _).
  rewrite Hm in Hm'. exists target, s1.
  destruct (commit_fault env) as [[? ?]|]; [discriminate|].
  inversion Hm'; subst s'. cbn [stdout root with_root].
  repeat split; auto.
  - apply lookup_del_top.
  - intros y N. now apply lookup_del_other.
Qed.

Lemma success_prints_the_path_witness :
  stdout sample_done = ["/home/dev/gadgets-py"] /\
  lookup "widgets-py" (root sample_done) = None.
Proof.
  destruct (success_prints_the_path_only plain_py (calm sample_argv) "widgets-py"
              sample_root sample_done)
    as (target & s1 & A & _ & Hout & Hl & _); [vm_compute; reflexivity|].
  vm_compute in A. inversion A; subst target. split; [exact Hout|exact Hl].
Defined.

(** X5.  A run in which a guarded step raises, the names being of one path
    component (the target name and the old library name hold no separator),
    never changes the original tree, also when the deletion of the
    destination fails in its turn; of the directory that holds the project
    only the destination entry can differ afterwards. *)
Theorem guarded_failure_spares_the_original :
  forall py env project r e s1 res s2,
    guarded py env (initial project r) = (Raise e, s1) ->
    main py env (initial project r) = (res, s2) ->
    (exists e', res = Raise e') /\
    lookup project (root s2) = lookup project r /\
    (forall y,
       (forall target, nth_error (argv env) 1 = Some target -> target ++ "-py" <> y) ->
       lookup y (root s2) = lookup y r) /\
    (forall target,
       nth_error (argv env) 1 = Some target -> new_created (info s1) = true ->
       one_step (target ++ "-py") = true).
Proof.
  intros py env project r e s1 res s2 G Hm.
  destruct (main_after_failure py env project r e s1 G)
    as (e' & s2' & Hm' & _ & _ & Hroot & _).
  rewrite Hm in Hm'. inversion Hm'; subst res s2'. split; [eauto|].
  cut (lookup project (root s2) = lookup project r /\
       forall y,
         (forall target, nth_error (argv env) 1 = Some target -> target ++ "-py" <> y) ->
         lookup y (root s2) = lookup y r).
  { intros [K1 K2]. split; [exact K1|]. split; [exact K2|].
    intros target A Fl.
    exact (guarded_one_step py env project r _ _ _ G ltac:(discriminate) A Fl). }
  assert (H1 : lookup project (root s1) = lookup project r /\
               forall y,
                 (forall target, nth_error (argv env) 1 = Some target ->
                                 target ++ "-py" <> y) ->
                 lookup y (root s1) = lookup y r).
  { destruct (guarded_cases py env project r _ _ G ltac:(discriminate))
      as [(_ & _ & _ & _ & _ & [->|(t & p & e0 & A & Lt & Lp & _ & ->)])
         |(t & d0 & A & _ & Lt & Lp & _ & Fl & _)].
    - auto.
    - split; [apply lookup_set_other; congruence|].
      intros y Hy. apply lookup_set_other. now apply Hy.
    - destruct (guarded_copied py env project r _ _ G ltac:(discriminate) Fl)
        as (t' & _ & _ & A' & _ & _ & _ & _ & _ & Ho & _).
      assert (t' = t) by congruence. subst t'.
      split; [apply Ho; congruence|]. intros y Hy. apply Ho. now apply Hy. }
  destruct H1 as [Hp Hy]. destruct Hroot as [->|(_ & t & A & Lt & Lp & Ho)]; [auto|].
  split.
  - rewrite Ho by congruence. exact Hp.
  - intros y N. rewrite Ho by (now apply N). now apply Hy.
Qed.

Lemma guarded_failure_spares_witness :
  main plain_py stubborn_copy (initial "widgets-py" [("widgets-py", Dir no_packages)])
  = (Raise PermissionError, no_packages_left) /\
  lookup "gadgets-py" (root no_packages_left) = Some (Dir [("zdocs", widgets_docs)]) /\
  lookup "widgets-py" (root no_packages_left) = Some (Dir no_packages).
Proof.
  split; [vm_compute; reflexivity|]. split; [vm_compute; reflexivity|].
  destruct (guarded_failure_spares_the_original plain_py stubborn_copy
              "widgets-py" [("widgets-py", Dir no_packages)]
              (FileNotFoundError "no packages found in library") no_packages_stop
              (Raise PermissionError) no_packages_left)
    as (_ & Hl & _); [vm_compute; reflexivity|vm_compute; reflexivity|exact Hl].
Defined.

(** ** [load_cfg] and [edit_cfg] *)

Section EditCfg.
Variable py : pylib.
Variable env : environment.
Variable x : string.

Lemma write_file_done fault p data s s' :
  write_file fault p data s = (Ok tt, s') ->
  fault = None /\ s' = with_root (set p (File data) (root s)) s /\
  exists d, get (removelast p) (root s) = Some (Dir d).
Proof.
  unfold write_file. intros W.
  destruct (get (removelast p) (root s)) as [[?|d]|]; try discriminate.
  destruct (get p (root s)) as [[?|?]|]; try discriminate;
    destruct fault as [[?|? ?]|]; inversion W; eauto.
Qed.

End EditCfg.

(** X6.  Without a readable [setup.cfg] in the working directory (none at
    all, or a directory of that name) [ConfigParser.read] yields the empty
    configuration, so [edit_cfg] raises [NoSectionError] for [metadata]
    and writes nothing. *)
Theorem edit_cfg_without_file :
  forall py env x s,
    cwd s = [x] ->
    (forall text, get [x; "setup.cfg"] (root s) <> Some (File text)) ->
    edit_cfg py env s = (Raise (NoSectionError "metadata"), s).
Proof.
  intros py env x s C N. unfold edit_cfg, bind, config_path, lift.
  rewrite C. change (joinpath [x] ["setup.cfg"]) with [x; "setup.cfg"].
  unfold load_cfg. destruct (get [x; "setup.cfg"] (root s)) as [[text|?]|];
    [now elim (N text)|reflexivity|reflexivity].
Qed.

Lemma edit_cfg_without_file_witness :
  edit_cfg plain_py (calm sample_argv) (in_copy [("widgets", package)])
  = (Raise (NoSectionError "metadata"), in_copy [("widgets", package)]).
Proof.
  apply (edit_cfg_without_file plain_py (calm sample_argv) "gadgets-py");
    [reflexivity|intros text; vm_compute; discriminate].
Defined.

(** X7.  A call of [edit_cfg] that returns has rewritten [setup.cfg] and
    nothing else in the working directory, and the configuration it wrote
    differs from the one it read in the four keys at most: the DEFAULT
    values, the sections with their order, and every other key are as they
    were read.  The value it returns is what [get] made of the old
    [metadata]/[name]. *)
Theorem edit_cfg_changes_four_keys :
  forall py env x s old s',
    cwd s = [x] ->
    edit_cfg py env s = (Ok old, s') ->
    exists c0 c,
      load_cfg py [x; "setup.cfg"] s = (Ok c0, s) /\
      cfg_get py c0 "metadata" "name" = Ok old /\
      get [x; "setup.cfg"] (root s') = Some (File (cfg_write c)) /\
      (forall y, y <> "setup.cfg" -> get [x; y] (root s') = get [x; y] (root s)) /\
      defaults c = defaults c0 /\
      map fst (sections c) = map fst (sections c0) /\
      forall section opt,
        ~ In (section, lower opt)
            [("metadata", "name"); ("coverage:run", "source");
             ("coverage:html", "title"); ("build_sphinx", "project")] ->
        raw_get c section opt = raw_get c0 section opt.
Proof.
  intros py env x s old s' C E.
  destruct (edit_cfg_steps py env x s _ _ C E)
    as [(N & _)|(c0 & old' & c1 & c2 & c3 & c4 & L & G & S1 & S2 & S3 & S4 & W & Ho)];
    [now elim (N old)|].
  rewrite <- (Ho old eq_refl) in G. exists c0, c4.
  destruct (write_file_done _ _ _ _ _ W) as (_ & -> & d & Gd).
  cbn [removelast] in Gd. rewrite get_top in Gd.
  split; [exact L|]. split; [exact G|]. cbn [root with_root].
  split; [eapply get_set_file; eauto|].
  split; [intros y N; apply get_set_sibling; congruence|].
  destruct (cfg_set_shape _ "metadata" _ _ _ eq_refl S1) as [D1 M1].
  destruct (cfg_set_shape _ "coverage:run" _ _ _ eq_refl S2) as [D2 M2].
  destruct (cfg_set_shape _ "coverage:html" _ _ _ eq_refl S3) as [D3 M3].
  destruct (cfg_set_shape _ "build_sphinx" _ _ _ eq_refl S4) as [D4 M4].
  split; [congruence|]. split; [congruence|].
  intros section opt N. cbn [In] in N.
  assert (K : forall c c' sec key v,
             named_section sec -> cfg_set c sec key v = Ok c' ->
             (sec, lower key) <> (section, lower opt) ->
             raw_get c' section opt = raw_get c section opt).
  { intros c c' sec key v Hn Hs Hd.
    destruct (string_dec sec section) as [<-|Ne].
    - eapply cfg_set_other_key; eauto. congruence.
    - eapply cfg_set_get_other; eauto. }
  rewrite (K c3 c4 "build_sphinx" "project" _ eq_refl S4) by (intros Q; apply N; auto).
  rewrite (K c2 c3 "coverage:html" "title" _ eq_refl S3) by (intros Q; apply N; auto).
  rewrite (K c1 c2 "coverage:run" "source" _ eq_refl S2) by (intros Q; apply N; auto).
  rewrite (K c0 c1 "metadata" "name" _ eq_refl S1) by (intros Q; apply N; auto).
  reflexivity.
Qed.

Lemma edit_cfg_changes_four_keys_witness :
  exists c0 c,
    cfg_parse plain_py widgets_cfg = Ok c0 /\
    get ["gadgets-py"; "setup.cfg"] (root sample_edited) = Some (File (cfg_write c)) /\
    get ["gadgets-py"; "widgets"] (root sample_edited) = Some package /\
    map fst (sections c) = map fst (sections c0).
Proof.
  destruct (edit_cfg_changes_four_keys plain_py (calm sample_argv) "gadgets-py"
              (in_copy widgets_project) "widgets" sample_edited)
    as (c0 & c & L & _ & G & Hy & _ & M & _);
    [reflexivity|vm_compute; reflexivity|].
  exists c0, c. split; [|split; [exact G|split; [|exact M]]].
  - vm_compute in L. inversion L. vm_compute. reflexivity.
  - rewrite Hy by discriminate. vm_compute. reflexivity.
Defined.

(** X8.  [edit_cfg] does return, with the old name, when [setup.cfg] parses
    to a configuration from which [get] reads [metadata]/[name], the three
    other sections are there, the target name has no percent sign and the
    write meets no fault; the file then holds the new name under the four
    keys. *)
Theorem edit_cfg_returns_the_old_name :
  forall py env x s d text c0 old target,
    cwd s = [x] ->
    lookup x (root s) = Some (Dir d) ->
    lookup "setup.cfg" d = Some (File text) ->
    cfg_parse py text = Ok c0 ->
    cfg_get py c0 "metadata" "name" = Ok old ->
    (forall section, In section ["coverage:run"; "coverage:html"; "build_sphinx"] ->
                     lookup section (sections c0) <> None) ->
    name_target (info s) = Some target ->
    has_char "%" target = false ->
    cfg_write_fault env = None ->
    exists c,
      edit_cfg py env s
      = (Ok old, with_root (set [x; "setup.cfg"] (File (cfg_write c)) (root s)) s) /\
      renamed target c.
Proof.
  intros py env x s d text c0 old target C Lx Lc P G Hs Ht Hp F.
  assert (Lm : exists dm, lookup "metadata" (sections c0) = Some dm).
  { unfold cfg_get, raw_get, section_dict in G.
    destruct (lookup "metadata" (sections c0)); [eauto|discriminate]. }
  destruct Lm as [dm Lm].
  assert (Lr : exists dr, lookup "coverage:run" (sections c0) = Some dr)
    by (destruct (lookup "coverage:run" (sections c0)) eqn:E; [eauto|];
        elim (Hs "coverage:run"); cbn; auto).
  assert (Lh : exists dh, lookup "coverage:html" (sections c0) = Some dh)
    by (destruct (lookup "coverage:html" (sections c0)) eqn:E; [eauto|];
        elim (Hs "coverage:html"); cbn; auto).
  assert (Lb : exists db, lookup "build_sphinx" (sections c0) = Some db)
    by (destruct (lookup "build_sphinx" (sections c0)) eqn:E; [eauto|];
        elim (Hs "build_sphinx"); cbn; auto).
  destruct Lr as [dr Lr]. destruct Lh as [dh Lh]. destruct Lb as [db Lb].
  assert (Hp' : has_char "%" ("coverage report for " ++ target) = false)
    by (apply has_char_app; [reflexivity|exact Hp]).
  pose (c1 := mkConfig (defaults c0) (put "metadata" (put "name" target dm) (sections c0))).
  pose (c2 := mkConfig (defaults c0) (put "coverage:run" (put "source" target dr) (sections c1))).
  pose (c3 := mkConfig (defaults c0)
                (put "coverage:html" (put "title" ("coverage report for " ++ target) dh)
                   (sections c2))).
  pose (c4 := mkConfig (defaults c0) (put "build_sphinx" (put "project" target db) (sections c3))).
  assert (S1 : cfg_set c0 "metadata" "name" (Some target) = Ok c1)
    by (now apply cfg_set_plain).
  assert (S2 : cfg_set c1 "coverage:run" "source" (Some target) = Ok c2).
  { apply (cfg_set_plain c1 "coverage:run" "source" target dr eq_refl Hp).
    cbn [c1 sections]. now rewrite lookup_put_other by discriminate. }
  assert (S3 : cfg_set c2 "coverage:html" "title" (Some ("coverage report for " ++ target))
               = Ok c3).
  { apply (cfg_set_plain c2 "coverage:html" "title" _ dh eq_refl Hp').
    cbn [c2 c1 sections]. now rewrite !lookup_put_other by discriminate. }
  assert (S4 : cfg_set c3 "build_sphinx" "project" (Some target) = Ok c4).
  { apply (cfg_set_plain c3 "build_sphinx" "project" target db eq_refl Hp).
    cbn [c3 c2 c1 sections]. now rewrite !lookup_put_other by discriminate. }
  exists c4. split.
  - unfold edit_cfg, bind, config_path, lift, ret. rewrite C.
    change (joinpath [x] ["setup.cfg"]) with [x; "setup.cfg"].
    unfold load_cfg. rewrite get_two, Lx, Lc, P, G, Ht. cbn [fstr].
    rewrite S1, S2, S3, S4. rewrite C.
    change (joinpath [x] ["setup.cfg"]) with [x; "setup.cfg"].
    unfold write_file. cbn [removelast].
    now rewrite get_top, Lx, get_two, Lx, Lc, F.
  - destruct (cfg_set_get_same _ "metadata" _ _ _ eq_refl S1) as (? & Hv1 & G1).
    destruct (cfg_set_get_same _ "coverage:run" _ _ _ eq_refl S2) as (? & Hv2 & G2).
    destruct (cfg_set_get_same _ "coverage:html" _ _ _ eq_refl S3) as (? & Hv3 & G3).
    destruct (cfg_set_get_same _ "build_sphinx" _ _ _ eq_refl S4) as (? & Hv4 & G4).
    inversion Hv1; inversion Hv2; inversion Hv3; inversion Hv4; subst.
    unfold renamed. repeat split.
    + rewrite (cfg_set_get_other _ "build_sphinx" _ _ _ "metadata" "name" eq_refl ltac:(discriminate) S4).
      rewrite (cfg_set_get_other _ "coverage:html" _ _ _ "metadata" "name" eq_refl ltac:(discriminate) S3).
      now rewrite (cfg_set_get_other _ "coverage:run" _ _ _ "metadata" "name" eq_refl ltac:(discriminate) S2).
    + rewrite (cfg_set_get_other _ "build_sphinx" _ _ _ "coverage:run" "source" eq_refl ltac:(discriminate) S4).
      now rewrite (cfg_set_get_other _ "coverage:html" _ _ _ "coverage:run" "source" eq_refl ltac:(discriminate) S3).
    + now rewrite (cfg_set_get_other _ "build_sphinx" _ _ _ "coverage:html" "title" eq_refl ltac:(discriminate) S4).
    + exact G4.
Qed.

Lemma edit_cfg_returns_witness :
  exists c,
    edit_cfg plain_py (calm sample_argv) (in_copy widgets_project)
    = (Ok "widgets",
       with_root (set ["gadgets-py"; "setup.cfg"] (File (cfg_write c))
                    (root (in_copy widgets_project)))
         (in_copy widgets_project)) /\
    renamed "gadgets" c.
Proof.
  destruct (plain_cfg_parse widgets_cfg) as [c0| |] eqn:P;
    [|vm_compute in P; discriminate..].
  apply (edit_cfg_returns_the_old_name plain_py (calm sample_argv) "gadgets-py"
           (in_copy widgets_project) widgets_project widgets_cfg c0 "widgets" "gadgets");
    try reflexivity; try exact P.
  - vm_compute in P. inversion P. vm_compute. reflexivity.
  - vm_compute in P. inversion P. intros section [<-|[<-|[<-|[]]]]; vm_compute; discriminate.
Defined.

(** ** Reading back what was written in the tree *)

Lemma set_at_cons x p new d :
  p <> [] ->
  set_at (x :: p) new (Dir d)
  = match lookup x d with
    | Some c => Dir (put x (set_at p new c) d)
    | None => Dir d
    end.
Proof. destruct p; [congruence|reflexivity]. Qed.

Lemma get_at_set_at_same p : forall n new d,
  p <> [] ->
  get_at (removelast p) n = Some (Dir d) ->
  get_at p (set_at p new n) = Some new.
Proof.
  induction p as [|x p IH]; [congruence|]. intros n new d _ G.
  destruct p as [|y q].
  - cbn [removelast get_at] in G. inversion G; subst n.
    cbn [set_at get_at]. now rewrite lookup_put_same.
  - change (removelast (x :: y :: q)) with (x :: removelast (y :: q)) in G.
    destruct n as [|d0]; [discriminate|]. cbn [get_at] in G.
    destruct (lookup x d0) as [c|] eqn:L; [|discriminate].
    rewrite set_at_cons by discriminate. rewrite L.
    cbn [get_at]. rewrite lookup_put_same. eapply IH; eauto. discriminate.
Qed.

Lemma get_at_set_at_sibling (pre : path) (a b : string) : forall n new,
  b <> a ->
  get_at (pre ++ [a])%list (set_at (pre ++ [b])%list new n)
  = get_at (pre ++ [a])%list n.
Proof.
  induction pre as [|x pre IH]; intros n new N.
  - destruct n as [|d]; [reflexivity|]. cbn [app set_at get_at].
    now rewrite lookup_put_other.
  - change ((x :: pre) ++ [b])%list with (x :: (pre ++ [b]))%list.
    change ((x :: pre) ++ [a])%list with (x :: (pre ++ [a]))%list.
    destruct n as [|d]; [cbn [set_at]; now destruct (pre ++ [b])%list|].
    rewrite set_at_cons by (now destruct pre).
    destruct (lookup x d) as [c|] eqn:L; [|reflexivity].
    cbn [get_at]. rewrite lookup_put_same, L. now apply IH.
Qed.

(** ** [rewrite_sphinx_conf] *)

(** X9.  A call of [rewrite_sphinx_conf] that returns has read the template
    as text, every CR LF and every CR become LF, and left in [conf.py], next
    to it, that text with every occurrence of the token replaced by the
    target name; the template is still there, and a template without
    carriage returns and without the token is copied as it is. *)
Theorem rewrite_sphinx_conf_writes_the_template :
  forall env x target s s',
    cwd s = [x] ->
    rewrite_sphinx_conf env target s = (Ok tt, s') ->
    exists data,
      get [x; "zdocs"; "source"; "conf-template"] (root s) = Some (File data) /\
      get [x; "zdocs"; "source"; "conf-template"] (root s') = Some (File data) /\
      get [x; "zdocs"; "source"; "conf.py"] (root s')
      = Some (File (replace "{lib-name-goes-here}" target (newlines data))) /\
      (has_char "013" data = false ->
       contains "{lib-name-goes-here}" data = false ->
       get [x; "zdocs"; "source"; "conf.py"] (root s') = Some (File data)).
Proof.
  intros env x target s s' C E. unfold rewrite_sphinx_conf in E.
  rewrite C in E. cbv zeta in E. unfold joinpath in E. cbn [app] in E.
  unfold bind in E.
  destruct (read_text _ _ s) as [[text|e|] s0] eqn:R; [|discriminate..].
  unfold read_text in R.
  destruct (get [x; "zdocs"; "source"; "conf-template"] (root s)) as [[data|?]|] eqn:G;
    try discriminate.
  destruct (template_read_fault env); [discriminate|]. inversion R; subst text s0.
  destruct (write_file_done _ _ _ _ _ E) as (_ & -> & d & Gd).
  exists data. split; [reflexivity|]. cbn [root with_root].
  set (conf := replace "{lib-name-goes-here}" target (newlines data)).
  assert (W : get [x; "zdocs"; "source"; "conf.py"]
                (set [x; "zdocs"; "source"; "conf.py"] (File conf) (root s))
              = Some (File conf)).
  { unfold get, set.
    assert (K : is_dir (set_at [x; "zdocs"; "source"; "conf.py"] (File conf)
                          (Dir (root s))) = true)
      by (apply set_at_dir; [discriminate|reflexivity]).
    destruct (set_at [x; "zdocs"; "source"; "conf.py"] _ (Dir (root s))) as [|d'] eqn:S;
      [discriminate|].
    cbn [entries_of]. rewrite <- S.
    eapply get_at_set_at_same; [discriminate|exact Gd]. }
  split; [|split; [exact W|]].
  - unfold get, set in *.
    assert (K : is_dir (set_at [x; "zdocs"; "source"; "conf.py"] (File conf)
                          (Dir (root s))) = true)
      by (apply set_at_dir; [discriminate|reflexivity]).
    destruct (set_at [x; "zdocs"; "source"; "conf.py"] _ (Dir (root s))) as [|d'] eqn:S;
      [discriminate|].
    cbn [entries_of]. rewrite <- S, <- G.
    apply (get_at_set_at_sibling [x; "zdocs"; "source"] "conf-template" "conf.py").
    discriminate.
  - intros Hr A. rewrite W. unfold conf.
    rewrite (newlines_absent _ Hr). now rewrite replace_absent.
Qed.

Lemma rewrite_sphinx_conf_witness :
  get ["gadgets-py"; "zdocs"; "source"; "conf.py"]
    (root (snd (rewrite_sphinx_conf (calm sample_argv) "gadgets" (in_copy widgets_project))))
  = Some (File "project = 'gadgets'").
Proof.
  destruct (rewrite_sphinx_conf (calm sample_argv) "gadgets" (in_copy widgets_project))
    as [res s'] eqn:E.
  assert (R : res = Ok tt) by (vm_compute in E; now inversion E). subst res.
  destruct (rewrite_sphinx_conf_writes_the_template (calm sample_argv) "gadgets-py"
              "gadgets" (in_copy widgets_project) s' eq_refl E)
    as (data & G & _ & W & _).
  vm_compute in G. inversion G; subst data. cbn [snd]. rewrite W.
  vm_compute. reflexivity.
Defined.

(** ** Removing the [.egg-info] directory *)

Lemma get_del_file x a r : get [x; a] (del [x; a] r) = None.
Proof.
  destruct (lookup x r) as [c|] eqn:L.
  - rewrite (del_below_eq _ _ _ _ _ L), get_two, lookup_put_same.
    destruct c as [|d]; [reflexivity|]. cbn [del_at]. apply lookup_remove_same.
  - unfold del. cbn [del_at]. rewrite L. cbn [entries_of]. now rewrite get_two, L.
Qed.

(** X10.  When the [.egg-info] entry is missing, or is a directory whose
    deletion meets no fault other than a first [PermissionError] (after
    which the mode is forced and the deletion repeated), the step returns
    and the entry is gone; the files of the working directory, the entries
    of the directory above it and the script's own record are as before. *)
Theorem egg_info_is_removed :
  forall env x y s,
    at_home x s ->
    (forall data, get [x; y] (root s) <> Some (File data)) ->
    (egg_fault env = None \/
     exists rest, egg_fault env = Some (PermissionError, rest) /\
                  egg_chmod_fault env = None /\ egg_retry_fault env = None) ->
    exists s',
      remove_egg_info env [x; y] s = (Ok tt, s') /\
      get [x; y] (root s') = None /\
      below x s s' /\ files_kept x s s'.
Proof.
  intros env x y s H Hf Hfault.
  destruct (remove_egg_info env [x; y] s) as [res s'] eqn:E.
  destruct (gentle_remove_egg_info env x y _ _ _ H E) as [B F].
  assert (K : res = Ok tt /\ get [x; y] (root s') = None);
    [|destruct K as [-> K]; eauto].
  unfold remove_egg_info, rmtree in E.
  destruct (get [x; y] (root s)) as [[data|d]|] eqn:G.
  - now elim (Hf data).
  - destruct Hfault as [F0|(rest & F0 & F1 & F2)]; rewrite F0 in E.
    + inversion E; subst. split; [reflexivity|]. cbn [root with_root].
      apply get_del_file.
    + unfold bind, chmod, rmtree in E. cbn [root with_root] in E.
      destruct H as [_ [d0 L0]].
      rewrite (get_set_file x y (Dir rest) (root s) d0 L0), F1 in E.
      cbn [root with_root] in E.
      rewrite (get_set_file x y (Dir rest) (root s) d0 L0), F2 in E.
      inversion E; subst. split; [reflexivity|]. cbn [root with_root].
      apply get_del_file.
  - inversion E; subst. auto.
Qed.

Lemma egg_info_witness :
  exists s',
    remove_egg_info (calm sample_argv) ["gadgets-py"; "widgets.egg-info"]
      (in_copy with_egg_info)
    = (Ok tt, s') /\
    get ["gadgets-py"; "widgets.egg-info"] (root s') = None /\
    get ["gadgets-py"; "setup.cfg"] (root s') = Some (File widgets_cfg).
Proof.
  destruct (egg_info_is_removed (calm sample_argv) "gadgets-py" "widgets.egg-info"
              (in_copy with_egg_info))
    as (s' & E & G & _ & F).
  - split; [reflexivity|]. eexists. vm_compute. reflexivity.
  - intros data. vm_compute. discriminate.
  - left. reflexivity.
  - exists s'. split; [exact E|]. split; [exact G|]. apply F. vm_compute. reflexivity.
Defined.

(** X11.  An error of the second attempt is never swallowed: when the first
    deletion raises [PermissionError] and the repeated one raises too, the
    step raises that second error, also when it is [FileNotFoundError]. *)
Theorem egg_info_retry_error_escapes :
  forall env x y s d rest e rest',
    at_home x s ->
    get [x; y] (root s) = Some (Dir d) ->
    egg_fault env = Some (PermissionError, rest) ->
    egg_chmod_fault env = None ->
    egg_retry_fault env = Some (e, rest') ->
    exists s', remove_egg_info env [x; y] s = (Raise e, s') /\
               get [x; y] (root s') = Some (Dir rest').
Proof.
  intros env x y s d rest e rest' [_ [d0 L0]] G F0 F1 F2.
  unfold remove_egg_info, rmtree. rewrite G, F0.
  unfold bind, chmod, rmtree. cbn [root with_root].
  rewrite (get_set_file x y (Dir rest) (root s) d0 L0), F1. cbn [root with_root].
  rewrite (get_set_file x y (Dir rest) (root s) d0 L0), F2.
  eexists. split; [reflexivity|]. cbn [root with_root].
  destruct (lookup_set_below x y [] (Dir rest) (root s) d0 L0) as [d1 L1].
  eapply get_set_file; eauto.
Qed.

Lemma egg_info_retry_witness :
  exists s',
    remove_egg_info locked_egg ["gadgets-py"; "widgets.egg-info"] (in_copy with_egg_info)
    = (Raise (FileNotFoundError "rmtree"), s') /\
    get ["gadgets-py"; "widgets.egg-info"] (root s') = Some (Dir [("PKG-INFO", File "")]).
Proof.
  apply (egg_info_retry_error_escapes locked_egg "gadgets-py" "widgets.egg-info"
           (in_copy with_egg_info) [("PKG-INFO", File "")] [("PKG-INFO", File "")]);
    try reflexivity.
  split; [reflexivity|]. eexists. vm_compute. reflexivity.
Defined.

(** ** [rename_packages] *)

(** X12.  With ASCII names, a package name free of regular-expression
    metacharacters and an old library name free of backslashes, the new
    name of a package is the target name itself whenever the target name
    does not contain the package name (letters compared without case),
    whether or not the package is named after the library. *)
Theorem new_name_is_the_target :
  forall old_name parent_name target_name,
    is_ascii old_name = true -> is_ascii parent_name = true ->
    is_ascii target_name = true ->
    all_chars (fun c => negb (regex_special c)) parent_name = true ->
    has_char backslash old_name = false ->
    contains (lower parent_name) (lower target_name) = false ->
    new_package_name plain_py old_name parent_name target_name = Ok target_name.
Proof.
  intros old_name parent_name target_name Ao Ap At Hp Hb Hc. unfold new_package_name.
  rewrite Ao, Ap. cbn [andb].
  destruct (contains (lower old_name) (lower parent_name)); [|reflexivity].
  cbn [re_sub plain_py]. unfold plain_re_sub. rewrite Ap, At, Hp, Hb. cbn [negb andb].
  destruct parent_name as [|c p]; [now rewrite contains_empty in Hc|].
  now rewrite sub_from_absent.
Qed.

Lemma new_name_witness :
  new_package_name plain_py "widgets" "widgets_cli" "gadgets" = Ok "gadgets".
Proof.
  apply (new_name_is_the_target "widgets" "widgets_cli" "gadgets"); reflexivity.
Defined.

(** the marker is looked for in the directory [q] of the working directory *)
Lemma present_marker_eq x q m r :
  present [x; q; m] r
  = match get [x; q] r with
    | Some (Dir dq) => match lookup m dq with Some _ => true | None => false end
    | _ => false
    end.
Proof.
  unfold present. rewrite get_two. unfold get. cbn [get_at].
  destruct (lookup x r) as [[|d]|]; try reflexivity.
  destruct (lookup q d) as [[|dq]|]; try reflexivity.
  now destruct (lookup m dq).
Qed.

Section RenamePackages.
Variable py : pylib.
Variable env : environment.
Variable x : string.
Variables (old target : string).

Lemma rename_loop_no_marker names : forall i s,
  cwd s = [x] ->
  (forall p, In p names -> present [x; p; "__init__.py"] (root s) = false) ->
  rename_loop py env old target names i s = (Ok i, s).
Proof.
  induction names as [|p rest IH]; intros i s C H; [reflexivity|].
  cbn [rename_loop]. rewrite C. unfold joinpath. cbn [app].
  rewrite (H p) by (now left). apply IH; auto. intros q Hq. apply H. now right.
Qed.

Lemma os_rename_stderr fault src dst s res s' :
  os_rename fault src dst s = (res, s') -> stderr s' = stderr s.
Proof.
  unfold os_rename. intros E.
  destruct fault; [now inversion E|].
  destruct (get src (root s)) as [n|]; [|now inversion E].
  destruct (String.eqb _ _); [now inversion E|].
  destruct (path_eqb src dst); [now inversion E|].
  destruct (get dst (root s)) as [[?|[|? ?]]|]; destruct n;
    try (now inversion E);
    destruct (get (removelast dst) (root s)) as [[?|?]|]; now inversion E.
Qed.

Lemma rename_one_diagnosed p s res s' :
  rename_one py env old target p s = (res, s') -> diagnosed target s res s'.
Proof.
  unfold rename_one. intros E.
  destruct (String.eqb (lower p) "zdevelop"); [inversion E; now left|].
  unfold bind, lift in E.
  destruct (new_package_name py old p target) as [n|e|]; [|inversion E; now left..].
  destruct (with_name n) as [n'|e|]; [|inversion E; now left..].
  destruct (os_rename _ _ _ s) as [r1 s1] eqn:R.
  pose proof (os_rename_stderr _ _ _ _ _ _ R) as Hs.
  destruct r1 as [[]|e|]; [inversion E; subst; now left| |inversion E; subst; now left].
  destruct e; try (inversion E; subst; now left).
  unfold sys_stderr_write, raise in E. inversion E; subst.
  right. exists msg. split; [reflexivity|]. cbn [stderr]. rewrite Hs. reflexivity.
Qed.

Lemma rename_loop_diagnosed names : forall i s res s',
  rename_loop py env old target names i s = (res, s') -> diagnosed target s res s'.
Proof.
  induction names as [|p rest IH]; intros i s res s' E; cbn [rename_loop] in E.
  - inversion E. now left.
  - destruct (present _ _); [|eapply IH; eauto].
    unfold bind in E.
    destruct (rename_one py env old target p s) as [r1 s1] eqn:R.
    pose proof (rename_one_diagnosed _ _ _ _ R) as D1.
    destruct r1 as [[]|e|].
    + destruct D1 as [D1|(m & Hm & _)]; [|discriminate].
      destruct (IH _ _ _ _ E) as [D2|(m & Hm & D2)]; [left|right; exists m; split; auto];
        congruence.
    + inversion E; subst. destruct D1 as [D1|(m & Hm & D1)]; [now left|].
      right. exists m. inversion Hm; subst. auto.
    + inversion E; subst. destruct D1 as [D1|(m & Hm & _)]; [now left|discriminate].
Qed.

End RenamePackages.

(** X13.  Whatever [rename_packages] does, it does inside the working
    directory and to directories only: the regular files directly in the
    working directory, every other entry of the directory above it, the
    script's record and standard output are as before, whether the step
    returns or raises. *)
Theorem rename_packages_moves_directories_only :
  forall py env x old target s res s',
    at_home x s ->
    rename_packages py env old target s = (res, s') ->
    (forall a data, get [x; a] (root s) = Some (File data) ->
                    get [x; a] (root s') = Some (File data)) /\
    (forall y, x <> y -> lookup y (root s') = lookup y (root s)) /\
    (exists d, lookup x (root s') = Some (Dir d)) /\
    info s' = info s /\ cwd s' = cwd s /\ stdout s' = stdout s.
Proof.
  intros py env x old target s res s' H E.
  destruct (gentle_rename_packages py env x old target s res s' H E)
    as [[[C' D'] I O T L] F].
  repeat split; auto. rewrite C'. symmetry. apply H.
Qed.

Lemma rename_packages_moves_witness :
  get ["gadgets-py"; "setup.cfg"]
    (root (snd (rename_packages plain_py (calm sample_argv) "widgets" "gadgets"
                  (in_copy two_packages))))
  = Some (File widgets_cfg).
Proof.
  destruct (rename_packages plain_py (calm sample_argv) "widgets" "gadgets"
              (in_copy two_packages)) as [res s'] eqn:E.
  destruct (rename_packages_moves_directories_only plain_py (calm sample_argv)
              "gadgets-py" "widgets" "gadgets" (in_copy two_packages) res s')
    as (F & _); [|exact E|].
  - split; [reflexivity|]. eexists. vm_compute. reflexivity.
  - cbn [snd]. apply F. vm_compute. reflexivity.
Defined.

(** X14.  When none of the directories that the pattern lists (the
    directories of the working directory whose name does not start with a
    dot) holds an [__init__.py], [rename_packages] raises
    [FileNotFoundError] and has changed nothing: a package in a hidden
    directory or a marker in a plain file's place does not count. *)
Theorem no_marker_no_packages :
  forall py env x old target s d,
    cwd s = [x] ->
    lookup x (root s) = Some (Dir d) ->
    (forall p, In p (glob_star_dirs d) ->
               present [x; p; "__init__.py"] (root s) = false) ->
    rename_packages py env old target s
    = (Raise (FileNotFoundError "no packages found in library"), s).
Proof.
  intros py env x old target s d C L H. unfold rename_packages.
  rewrite C, get_top, L. cbv zeta. unfold bind.
  now rewrite (rename_loop_no_marker py env x old target _ None s C H).
Qed.

Lemma no_marker_witness :
  rename_packages plain_py (calm sample_argv) "widgets" "gadgets"
    (in_copy [(".widgets", package); ("notes", Dir [])])
  = (Raise (FileNotFoundError "no packages found in library"),
     in_copy [(".widgets", package); ("notes", Dir [])]).
Proof.
  apply (no_marker_no_packages plain_py (calm sample_argv) "gadgets-py" "widgets" "gadgets"
           (in_copy [(".widgets", package); ("notes", Dir [])])
           [(".widgets", package); ("notes", Dir [])]);
    [reflexivity|vm_compute; reflexivity|].
  intros p [<-|[]]. vm_compute. reflexivity.
Defined.

(** X15.  [rename_packages] writes its diagnostic to standard error at most
    once, and only in a call that raises [FileExistsError]; any other
    outcome leaves standard error as it was. *)
Theorem diagnostic_only_with_file_exists_error :
  forall py env old target s res s',
    rename_packages py env old target s = (res, s') ->
    stderr s' = stderr s \/
    exists m,
      res = Raise (FileExistsError m) /\
      stderr s' = (stderr s ++ [collision_message target])%list.
Proof.
  intros py env old target s res s' E. unfold rename_packages in E.
  cbv zeta in E. unfold bind in E.
  destruct (rename_loop py env old target _ None s) as [r1 s1] eqn:R.
  pose proof (rename_loop_diagnosed py env old target _ _ _ _ _ R) as D.
  destruct r1 as [[n|]|e|].
  - inversion E; subst. destruct D as [D|(m & Hm & _)]; [now left|discriminate].
  - inversion E; subst. destruct D as [D|(m & Hm & _)]; [now left|discriminate].
  - inversion E; subst. destruct D as [D|(m & Hm & D)]; [now left|].
    right. exists m. split; [now inversion Hm|exact D].
  - inversion E; subst. destruct D as [D|(m & Hm & _)]; [now left|discriminate].
Qed.

Lemma diagnostic_witness :
  stderr (snd (rename_packages plain_py (calm sample_argv) "widgets" "gadgets"
                 (in_copy two_packages))) = [].
Proof.
  destruct (rename_packages plain_py (calm sample_argv) "widgets" "gadgets"
              (in_copy two_packages)) as [res s'] eqn:E.
  destruct (diagnostic_only_with_file_exists_error plain_py (calm sample_argv)
              "widgets" "gadgets" (in_copy two_packages) res s' E)
    as [D|(m & Hm & _)].
  - exact D.
  - subst res. vm_compute in E. discriminate E.
Defined.

Section SinglePackage.
Variable py : pylib.
Variable env : environment.
Variable x : string.
Variables (old target p n : string).
Variable s : state.
Variable node_p : dir.

Hypothesis Hcwd : cwd s = [x].
Hypothesis Hp : get [x; p] (root s) = Some (Dir node_p).
Hypothesis Hmarker : lookup "__init__.py" node_p <> None.
Hypothesis Hskip : String.eqb (lower p) "zdevelop" = false.
Hypothesis Hname : new_package_name py old p target = Ok n.
Hypothesis Hvalid : with_name n = Ok n.
Hypothesis Hup : n <> "..".
Hypothesis Hfree : get [x; n] (root s) = None.
Hypothesis Hfault : rename_fault env p = None.

Local Abbreviation moved := (moved_state x p n node_p s).

Lemma single_home : exists d, lookup x (root s) = Some (Dir d).
Proof.
  rewrite get_two in Hp. destruct (lookup x (root s)) as [[|d]|]; try discriminate. eauto.
Qed.

Lemma single_distinct : p <> n.
Proof. intros ->. congruence. Qed.

Lemma rename_one_single : rename_one py env old target p s = (Ok tt, moved).
Proof.
  unfold rename_one. rewrite Hskip. unfold bind, lift. rewrite Hname, Hvalid, Hcwd.
  unfold joinpath. cbn [app]. unfold os_rename. rewrite Hfault, Hp.
  cbn [last]. destruct (String.eqb n "..") eqn:E; [apply String.eqb_eq in E; contradiction|].
  unfold path_eqb. destruct (list_eq_dec string_dec [x; p] [x; n]) as [Q|_].
  { inversion Q. now elim single_distinct. }
  rewrite Hfree. cbn [removelast]. rewrite get_top.
  destruct single_home as [d ->]. reflexivity.
Qed.

Lemma moved_p : get [x; p] (root moved) = None.
Proof.
  unfold moved_state. cbn [root with_root].
  rewrite get_set_sibling by (intros Q; now elim single_distinct).
  apply get_del_file.
Qed.

Lemma moved_n : get [x; n] (root moved) = Some (Dir node_p).
Proof.
  unfold moved_state. cbn [root with_root].
  destruct single_home as [d L].
  destruct (lookup_del_below x p [] (root s) d L) as [d' L'].
  eapply get_set_file; eauto.
Qed.

Lemma moved_other q : q <> p -> q <> n -> get [x; q] (root moved) = get [x; q] (root s).
Proof.
  intros Qp Qn. unfold moved_state. cbn [root with_root].
  rewrite get_set_sibling by congruence. now rewrite get_del_sibling by congruence.
Qed.

Lemma rename_loop_single names : forall i,
  In p names ->
  (forall q, In q names -> q <> p ->
             present [x; q; "__init__.py"] (root s) = false) ->
  (forall q, In q names -> q <> n) ->
  rename_loop py env old target names i s = (Ok (Some (next_count i)), moved).
Proof.
  induction names as [|q rest IH]; intros i Hin Hq Hn; [contradiction|].
  cbn [rename_loop]. rewrite Hcwd. unfold joinpath. cbn [app].
  destruct (string_dec q p) as [->|Nq].
  - rewrite present_marker_eq, Hp.
    destruct (lookup "__init__.py" node_p) eqn:M; [|contradiction].
    unfold bind. rewrite rename_one_single.
    apply (rename_loop_no_marker py env x old target rest _ moved Hcwd).
    intros q Hq'. rewrite present_marker_eq.
    destruct (string_dec q p) as [->|Nq]; [now rewrite moved_p|].
    rewrite moved_other; auto; [|apply Hn; now right].
    rewrite <- present_marker_eq. apply Hq; auto. now right.
  - rewrite (Hq q) by (auto; now left).
    apply IH.
    + destruct Hin as [Q|Q]; [congruence|exact Q].
    + intros q' Hq'. apply Hq. now right.
    + intros q' Hq'. apply Hn. now right.
Qed.

End SinglePackage.

(** X16.  In a project whose only directory with a marker among those the
    pattern lists is the package [p], not the tooling directory, with the
    new name a valid, free name and no fault at the rename, the step
    returns: the package is now under its new name, its old name is gone,
    and every other entry of the working directory is as it was. *)
Theorem single_package_is_renamed :
  forall py env x old target p n s d node_p,
    cwd s = [x] ->
    lookup x (root s) = Some (Dir d) ->
    In p (glob_star_dirs d) ->
    lookup p d = Some (Dir node_p) ->
    lookup "__init__.py" node_p <> None ->
    (forall q, In q (glob_star_dirs d) -> q <> p ->
               present [x; q; "__init__.py"] (root s) = false) ->
    String.eqb (lower p) "zdevelop" = false ->
    new_package_name py old p target = Ok n ->
    with_name n = Ok n -> n <> ".." ->
    lookup n d = None ->
    rename_fault env p = None ->
    exists s',
      rename_packages py env old target s = (Ok tt, s') /\
      get [x; n] (root s') = Some (Dir node_p) /\
      get [x; p] (root s') = None /\
      forall q, q <> p -> q <> n -> get [x; q] (root s') = get [x; q] (root s).
Proof.
  intros py env x old target p n s d node_p C L Hin Lp M Hq Hz Hn Hv Hu Lf Hf.
  assert (Gp : get [x; p] (root s) = Some (Dir node_p)) by (now rewrite get_two, L).
  assert (Gn : get [x; n] (root s) = None) by (now rewrite get_two, L).
  exists (with_root (set [x; n] (Dir node_p) (del [x; p] (root s))) s).
  split.
  - unfold rename_packages. rewrite C, get_top, L. cbv zeta. unfold bind.
    rewrite (rename_loop_single py env x old target p n s node_p C Gp M Hz Hn Hv Hu Gn Hf
               (glob_star_dirs d) None Hin Hq); [reflexivity|].
    intros q Hqin ->. unfold glob_star_dirs in Hqin.
    apply in_map_iff in Hqin. destruct Hqin as ([k v] & Hk & Hkv). cbn in Hk. subst k.
    apply filter_In in Hkv. destruct Hkv as [Hkv _].
    clear -Hkv Lf. induction d as [|[k' v'] d' IH]; [contradiction|].
    cbn [lookup] in Lf. destruct (String.eqb n k') eqn:E; [discriminate|].
    destruct Hkv as [Q|Q]; [inversion Q; subst; now rewrite String.eqb_refl in E|auto].
  - split; [eapply moved_n; eauto|]. split; [eapply moved_p; eauto|].
    intros q Qp Qn. eapply moved_other; eauto.
Qed.

Lemma single_package_witness :
  exists s',
    rename_packages plain_py (calm sample_argv) "widgets" "gadgets" (in_copy widgets_project)
    = (Ok tt, s') /\
    get ["gadgets-py"; "gadgets"] (root s') = Some package /\
    get ["gadgets-py"; "widgets"] (root s') = None.
Proof.
  destruct (single_package_is_renamed plain_py (calm sample_argv) "gadgets-py"
              "widgets" "gadgets" "widgets" "gadgets" (in_copy widgets_project)
              widgets_project [("__init__.py", File "")])
    as (s' & E & Gn & Gp & _); try reflexivity.
  - vm_compute. auto.
  - discriminate.
  - intros q Hq Nq. vm_compute in Hq. destruct Hq as [<-|[<-|[]]];
      [vm_compute; reflexivity|congruence].
  - discriminate.
  - exists s'. auto.
Defined.

(** ** [alter_new] and [make_new_directory] *)

(** X17.  In a call of [alter_new] that the model follows to its end (the
    old library name read from [setup.cfg] holds no separator, the names
    are ASCII), whether it returns or raises, everything is done below the
    working directory: every other entry of the directory above (the
    original tree among them), the script's record, the working directory
    itself and standard output are as before. *)
Theorem alter_new_stays_in_the_copy :
  forall py env x s res s',
    at_home x s ->
    alter_new py env s = (res, s') ->
    res <> Beyond ->
    (forall y, x <> y -> lookup y (root s') = lookup y (root s)) /\
    (exists d, lookup x (root s') = Some (Dir d)) /\
    info s' = info s /\ cwd s' = cwd s /\ stdout s' = stdout s.
Proof.
  intros py env x s res s' H E _.
  destruct (alter_new_spec py env x s res s' H E) as [[[C' D'] I O T L] _].
  repeat split; auto. rewrite C'. symmetry. apply H.
Qed.

Lemma alter_new_witness :
  lookup "widgets-py"
    (root (snd (alter_new plain_py (calm sample_argv) (in_copy two_packages))))
  = Some (Dir two_packages).
Proof.
  destruct (alter_new plain_py (calm sample_argv) (in_copy two_packages))
    as [res s'] eqn:E.
  destruct (alter_new_stays_in_the_copy plain_py (calm sample_argv) "gadgets-py"
              (in_copy two_packages) res s')
    as (L & _); [|exact E| |].
  - split; [reflexivity|]. eexists. vm_compute. reflexivity.
  - vm_compute in E. inversion E. discriminate.
  - cbn [snd]. rewrite L by discriminate. vm_compute. reflexivity.
Defined.

(** X18.  When [make_new_directory] returns, the destination (its name one
    path component) did not exist before, it is now a directory with the
    very contents of the original, the original and every other entry are
    as they were, both paths are recorded and the flag is set.  When it
    raises, the flag is as it was and the original is untouched. *)
Theorem make_new_directory_copies_the_tree :
  forall env project target s res s',
    cwd s = [project] ->
    name_target (info s) = Some target ->
    make_new_directory env s = (res, s') ->
    (res = Ok tt ->
     exists d0,
       lookup (target ++ "-py") (root s) = None /\
       lookup project (root s) = Some (Dir d0) /\
       lookup (target ++ "-py") (root s') = Some (Dir d0) /\
       (forall y, target ++ "-py" <> y -> lookup y (root s') = lookup y (root s)) /\
       path_original (info s') = Some [project] /\
       path_target (info s') = Some [target ++ "-py"] /\
       new_created (info s') = true /\
       one_step (target ++ "-py") = true) /\
    (forall e, res = Raise e ->
               new_created (info s') = new_created (info s) /\
               lookup project (root s') = lookup project (root s)) /\
    cwd s' = [project] /\ stdout s' = stdout s.
Proof.
  intros env project target s res s' C T E. unfold make_new_directory in E.
  rewrite C, T in E. cbn [removelast joinpath app fstr] in E. cbv zeta in E.
  unfold present, copytree in E. cbn [root with_info] in E.
  unfold present in E. rewrite !get_top in E.
  destruct (lookup (target ++ "-py") (root s)) eqn:Lt.
  { inversion E; subst. cbn. repeat split; auto; discriminate. }
  destruct (one_step (target ++ "-py")) eqn:One; cbn [negb] in E.
  2:{ inversion E; subst. cbn. repeat split; auto; discriminate. }
  destruct (lookup project (root s)) as [[data|d0]|] eqn:Lp;
    [inversion E; subst; cbn; repeat split; auto; discriminate|
    |inversion E; subst; cbn; repeat split; auto; discriminate].
  destruct (copytree_fault env) as [[e [partial|]]|].
  - inversion E; subst. cbn [info root cwd stdout with_root with_info new_created].
    split; [discriminate|]. split; auto.
    intros e' _. split; [reflexivity|].
    rewrite lookup_set_other by congruence. exact Lp.
  - inversion E; subst. cbn [info root cwd stdout with_root with_info new_created].
    repeat split; auto; discriminate.
  - inversion E; subst.
    cbn [info root cwd stdout with_root with_info new_created path_original path_target].
    split; [|split; [discriminate|auto]].
    intros _. exists d0. repeat split; auto.
    + apply lookup_set_top.
    + intros y N. now apply lookup_set_other.
Qed.

Lemma make_new_directory_witness :
  exists s',
    make_new_directory (calm sample_argv) (named "widgets-py" "gadgets" sample_root)
    = (Ok tt, s') /\
    lookup "gadgets-py" (root s') = Some (Dir widgets_project) /\
    lookup "widgets-py" (root s') = Some (Dir widgets_project) /\
    new_created (info s') = true.
Proof.
  destruct (make_new_directory (calm sample_argv) (named "widgets-py" "gadgets" sample_root))
    as [res s'] eqn:E.
  assert (R : res = Ok tt) by (vm_compute in E; now inversion E). subst res.
  destruct (make_new_directory_copies_the_tree (calm sample_argv) "widgets-py" "gadgets"
              (named "widgets-py" "gadgets" sample_root) (Ok tt) s' eq_refl eq_refl E)
    as (H & _).
  destruct (H eq_refl) as (d0 & _ & Lp & Lt & Ho & _ & _ & Fl & _).
  vm_compute in Lp. inversion Lp; subst d0.
  exists s'. split; [reflexivity|]. split; [exact Lt|]. split; [|exact Fl].
  rewrite Ho by discriminate. reflexivity.
Defined.
